(** * aigent: the CLI entry point and the environment scaffolder

    A shallow embedding of [src/agent/cli/start.py] and
    [src/agent/scaffold.py].  Python dictionaries are finite maps, the
    side effects of the two modules (logging, environment variables,
    shell commands, file-system calls, the call of the generation agent)
    are recorded in a chronological trace, and Python exceptions are an
    explicit error result threaded through a small state-and-error monad. *)

From Stdlib Require Import String Ascii ZArith List Bool.
From stdpp Require Import gmap strings list fin_maps pretty.

Local Open Scope string_scope.
Local Open Scope Z_scope.
Local Open Scope list_scope.

(** ** Python values and exceptions *)

(** The values a configuration entry can hold: strings, booleans and
    integers as TOML has them, and [None] for a key the loader set to
    nothing.  The code only tests entries against [None] and compares their
    [str] with two words, so the other TOML values (floats, dates, arrays,
    tables) would behave as the integers do. *)
Inductive pyval : Type :=
  | PNone
  | PBool (b : bool)
  | PInt (z : Z)
  | PStr (s : string).

#[global] Instance pyval_eq_dec : EqDecision pyval.
Proof. solve_decision. Defined.

(** The subclasses of [OSError] that the file-system calls and a failed
    process launch raise. *)
Inductive oserror : Type :=
  | FileNotFoundError
  | FileExistsError
  | IsADirectoryError
  | NotADirectoryError
  | PermissionError.

(** The exceptions the two modules raise or let through. [TyperExit c] is
    [typer.Exit(code=c)]; the source always raises it with the default
    code 0. *)
Inductive exn : Type :=
  | KeyError (key : string)
  | TyperExit (code : Z)
  | CalledProcessError (returncode : Z)
  | OSError (e : oserror)
  | UnicodeDecodeError.

Inductive result (A : Type) : Type :=
  | Ok (a : A)
  | Raise (e : exn).
Arguments Ok {A} a.
Arguments Raise {A} e.

(** [str(v)] on the values above. *)
Definition str (v : pyval) : string :=
  match v with
  | PNone => "None"
  | PBool true => "True"
  | PBool false => "False"
  | PInt z => pretty z
  | PStr s => s
  end.

(** [c.lower()] on one ASCII character. *)
Definition lower_ascii (c : ascii) : ascii :=
  let n := nat_of_ascii c in
  if ((65 <=? n)%nat && (n <=? 90)%nat)%bool then ascii_of_nat (n + 32) else c.

(** [s.lower()].  Strings are byte strings here; the two call sites compare
    the result with the ASCII words [debug] and [true], whose letters have
    no upper-case form outside ASCII, so the byte-wise map decides the same
    comparisons as Python's Unicode-aware method. *)
Fixpoint lower (s : string) : string :=
  match s with
  | EmptyString => EmptyString
  | String c r => String (lower_ascii c) (lower r)
  end.

(** Truth value of a string in a condition: [if s:]. *)
Definition truthy (s : string) : bool := negb (String.eqb s "").

(** ** State and error monad *)

Definition M (S A : Type) : Type := S -> result A * S.

Definition ret {S A} (a : A) : M S A := fun s => (Ok a, s).

Definition raise {S A} (e : exn) : M S A := fun s => (Raise e, s).

Definition bind {S A B} (m : M S A) (k : A -> M S B) : M S B :=
  fun s => match m s with
           | (Ok a, s') => k a s'
           | (Raise e, s') => (Raise e, s')
           end.

Notation "x <- m ;; k" := (bind m (fun x => k))
  (at level 100, m at next level, right associativity).
Notation "m ;;; k" := (bind m (fun _ => k))
  (at level 100, right associativity).

(** [try: m  except ...: handler e] *)
Definition try_except {S A} (m : M S A) (handler : exn -> M S A) : M S A :=
  fun s => match m s with
           | (Ok a, s') => (Ok a, s')
           | (Raise e, s') => handler e s'
           end.

(** [if c: body] *)
Definition when {S} (c : bool) (body : M S unit) : M S unit :=
  if c then body else ret tt.

(** [for x in xs: body(x)] *)
Fixpoint for_each {S A} (xs : list A) (body : A -> M S unit) : M S unit :=
  match xs with
  | [] => ret tt
  | x :: r => body x ;;; for_each r body
  end.

(** [d[k]], raising [KeyError] on a missing key. *)
Definition getitem {S V} (d : gmap string V) (k : string) : M S V :=
  match d !! k with
  | Some v => ret v
  | None => raise (KeyError k)
  end.

(** ** [agent/cli/start.py] *)

Module Start.

(** The observable effects of [start], in the order they happen. *)
Inductive event : Type :=
  | LoggerSetLevel (level : string)
  | EnvironSet (name value : string)
  | LoggerInfo (msg : string)
  | Popen (cmd : string)
  | ErrPrint (msg : string)
  | Agent (prompt url : pyval).

#[global] Instance event_eq_dec : EqDecision event.
Proof. solve_decision. Defined.

Definition trace := list event.

Definition emit (e : event) : M trace unit := fun t => (Ok tt, (t ++ [e])).

(** The configuration mapping [read_config()] returns: sections of keys. *)
Abbreviation config := (gmap string (gmap string pyval)).

(** [config[sec][key] = v]: the section must exist, the key need not. *)
Definition setitem2 (cfg : config) (sec key : string) (v : pyval) : M trace config :=
  d <- getitem cfg sec ;;
  ret (<[sec := <[key := v]> d]> cfg).

(** [config[sec][key]] *)
Definition getitem2 (cfg : config) (sec key : string) : M trace pyval :=
  d <- getitem cfg sec ;;
  getitem d key.

(** [config[sec].get(key)]: [None] for a missing key. *)
Definition get2 (cfg : config) (sec key : string) : M trace pyval :=
  d <- getitem cfg sec ;;
  ret (default PNone (d !! key)).

(** The arguments of [start]. [prompt] and [url] are tested with
    [is not None], so they are optional; the defaults of the others are the
    ones of the signature. *)
Record args : Type := {
  prompt : option string;
  url : option string;
  clean : bool;
  debug : bool;
  headless : bool;
  language : string;
  framework : string
}.

Definition default_args : args :=
  {| prompt := None; url := None; clean := false; debug := false;
     headless := false; language := "python"; framework := "playwright" |}.

Section WithTestDir.

(** [TEST_DIR], imported from [agent.config]. *)
Variable TEST_DIR : string.

(** Lines 49-63: CLI arguments are written over the loaded configuration. *)
Definition overrides (a : args) (cfg : config) : M trace config :=
  cfg <- match prompt a with
         | Some p => setitem2 cfg "agent" "prompt" (PStr p)
         | None => ret cfg
         end ;;
  cfg <- match url a with
         | Some u => setitem2 cfg "agent" "url" (PStr u)
         | None => ret cfg
         end ;;
  cfg <- (if headless a then setitem2 cfg "config" "headless" (PBool (headless a))
          else ret cfg) ;;
  cfg <- (if debug a then setitem2 cfg "config" "log_level" (PStr "DEBUG")
          else ret cfg) ;;
  cfg <- (if clean a then setitem2 cfg "config" "clean" (PBool (clean a))
          else ret cfg) ;;
  cfg <- (if truthy (language a) then setitem2 cfg "agent" "language" (PStr (language a))
          else ret cfg) ;;
  cfg <- (if truthy (framework a) then setitem2 cfg "agent" "framework" (PStr (framework a))
          else ret cfg) ;;
  ret cfg.

(** Lines 65-75: actions based on the merged configuration. *)
Definition actions (cfg : config) : M trace unit :=
  lvl <- getitem2 cfg "config" "log_level" ;;
  when (String.eqb (lower (str lvl)) "debug")
    (emit (LoggerSetLevel "DEBUG") ;;;
     emit (EnvironSet "LOG_LEVEL" "DEBUG")) ;;;
  hl <- getitem2 cfg "config" "headless" ;;
  when (String.eqb (lower (str hl)) "true")
    (emit (EnvironSet "HEADLESS" "true")) ;;;
  cl <- getitem2 cfg "config" "clean" ;;
  when (String.eqb (lower (str cl)) "true")
    (emit (LoggerInfo ("Deleting files in the " +:+ TEST_DIR +:+ " directory")) ;;;
     emit (Popen ("rm -rf " +:+ TEST_DIR +:+ "/*"))).

(** The message of line 81. *)
Definition missing_msg (item : string) : string :=
  "Please set agent." +:+ item +:+
  " in the config.toml file or pass it as the --" +:+ item +:+ " CLI option.".

(** Lines 77-83: required fields. *)
Definition validate (cfg : config) : M trace unit :=
  for_each ["url"; "prompt"] (fun item =>
    v <- get2 cfg "agent" item ;;
    match v with
    | PNone => emit (ErrPrint (missing_msg item)) ;;; raise (TyperExit 0)
    | _ => ret tt
    end).

(** Lines 85-89: the call of the generation agent. *)
Definition call_agent (cfg : config) : M trace unit :=
  p <- getitem2 cfg "agent" "prompt" ;;
  u <- getitem2 cfg "agent" "url" ;;
  emit (Agent p u).

(** [start], given the mapping [read_config()] returned. *)
Definition start (a : args) (file_cfg : config) : M trace unit :=
  cfg <- overrides a file_cfg ;;
  actions cfg ;;;
  validate cfg ;;;
  call_agent cfg.

End WithTestDir.

(** *** Vocabulary for the statements about [start] *)

Definition present {A} (o : option A) : bool :=
  match o with Some _ => true | None => false end.

(** The entry [cfg[sec][key]], if it is there. *)
Definition entry (cfg : config) (sec key : string) : option pyval :=
  cfg !! sec ≫= (.!! key).

(** [cfg[sec].get(key)]: a missing entry reads as [None]. *)
Definition field (cfg : config) (sec key : string) : pyval :=
  default PNone (entry cfg sec key).

(** The shape [start] relies on when it reads the configuration back:
    an [agent] section, and a [config] section with its three settings. *)
Definition loaded (cfg : config) : bool :=
  present (cfg !! "agent") && present (entry cfg "config" "headless")
  && present (entry cfg "config" "log_level") && present (entry cfg "config" "clean").

(** The effective configuration: the file's, after the CLI overrides. *)
Definition resolved (a : args) (cfg : config) : config :=
  match fst (overrides a cfg []) with
  | Ok cfg' => cfg'
  | Raise _ => cfg
  end.

(** [str(v).lower() == word] *)
Definition says (word : string) (v : pyval) : bool :=
  String.eqb (lower (str v)) word.

(** What the actions of lines 65-75 do for a configuration. *)
Definition action_events (TEST_DIR : string) (cfg : config) : trace :=
  (if says "debug" (field cfg "config" "log_level")
   then [LoggerSetLevel "DEBUG"; EnvironSet "LOG_LEVEL" "DEBUG"] else [])
  ++ (if says "true" (field cfg "config" "headless")
      then [EnvironSet "HEADLESS" "true"] else [])
  ++ (if says "true" (field cfg "config" "clean")
      then [LoggerInfo ("Deleting files in the " +:+ TEST_DIR +:+ " directory");
            Popen ("rm -rf " +:+ TEST_DIR +:+ "/*")] else []).

(** The two ways a run ends: the message of the validation, or the agent. *)
Definition is_outcome (e : event) : bool :=
  match e with ErrPrint _ | Agent _ _ => true | _ => false end.

Definition is_popen (e : event) : bool :=
  match e with Popen _ => true | _ => false end.

(** Closed forms of the two sections after the overrides. *)
Definition set_when (c : bool) (key : string) (v : pyval) (d : gmap string pyval)
  : gmap string pyval := if c then <[key := v]> d else d.

Definition set_some (key : string) (o : option string) (d : gmap string pyval)
  : gmap string pyval :=
  match o with Some s => <[key := PStr s]> d | None => d end.

Definition merged_agent (a : args) (ag : gmap string pyval) : gmap string pyval :=
  set_when (truthy (framework a)) "framework" (PStr (framework a))
    (set_when (truthy (language a)) "language" (PStr (language a))
       (set_some "url" (url a) (set_some "prompt" (prompt a) ag))).

Definition merged_config (a : args) (cf : gmap string pyval) : gmap string pyval :=
  set_when (clean a) "clean" (PBool true)
    (set_when (debug a) "log_level" (PStr "DEBUG")
       (set_when (headless a) "headless" (PBool true) cf)).

Definition sections (ag cf : gmap string pyval) (cfg : config) : config :=
  <["config" := cf]> (<["agent" := ag]> cfg).

(** *** Sample inputs *)

(** A configuration file that sets every key. *)
Definition example_config : config :=
  {[ "agent" := {[ "prompt" := PStr "check login flow";
                   "url" := PStr "http://example.com";
                   "language" := PStr "typescript";
                   "framework" := PStr "cypress" ]};
     "config" := {[ "headless" := PBool false;
                    "log_level" := PStr "INFO";
                    "clean" := PBool true ]} ]}.

(** The same file without [agent.prompt]. *)
Definition no_prompt_config : config :=
  <["agent" := {[ "url" := PStr "http://example.com" ]}]> example_config.

(** The same file with an empty [agent.prompt]. *)
Definition empty_prompt_config : config :=
  <["agent" := {[ "prompt" := PStr ""; "url" := PStr "http://example.com" ]}]>
    example_config.

(** [--clean] and nothing else. *)
Definition clean_args : args :=
  {| prompt := None; url := None; clean := true; debug := false;
     headless := false; language := "python"; framework := "playwright" |}.

(** [--language ""] and [--framework ""]. *)
Definition no_language_args : args :=
  {| prompt := None; url := None; clean := false; debug := false;
     headless := false; language := ""; framework := "" |}.

(** A call that passes every option. *)
Definition full_args : args :=
  {| prompt := Some "check the cart"; url := Some "http://shop.example";
     clean := true; debug := true; headless := true;
     language := "javascript"; framework := "cypress" |}.

(** The example file without [config.log_level]. *)
Definition no_log_level_config : config :=
  <["config" := {[ "headless" := PBool false; "clean" := PBool false ]}]> example_config.

(** The example file without [config.clean], with debug and headless on. *)
Definition no_clean_config : config :=
  <["config" := {[ "headless" := PStr "True"; "log_level" := PStr "debug" ]}]>
    example_config.

(** The example file with [config.clean] off. *)
Definition clean_off_config : config :=
  <["config" := {[ "headless" := PBool false; "log_level" := PStr "INFO";
                   "clean" := PBool false ]}]> example_config.

End Start.

(** ** [agent/scaffold.py] *)

Module Scaffold.

(** *** The file system *)

(** A path is the list of its components; [test_dir / name] appends one. *)
Abbreviation path := (list string).

Definition parent (p : path) : path := removelast p.

(** [p / name] *)
Definition join (p : path) (name : string) : path := (p ++ [name]).
Infix "//" := join (at level 40, left associativity).

Inductive node : Type :=
  | File (content : string)
  | Dir.

#[global] Instance node_eq_dec : EqDecision node.
Proof. solve_decision. Defined.

Abbreviation filesystem := (gmap path node).

(** Every entry but the root lies in a directory. *)
Definition wf (fs : filesystem) : bool :=
  bool_decide (map_Forall (fun p _ => p = [] \/ fs !! parent p = Some Dir) fs).

(** [p] is a directory with nothing in it. *)
Definition empty_dir (fs : filesystem) (p : path) : Prop :=
  fs !! p = Some Dir /\ forall q, p `prefix_of` q -> q <> p -> fs !! q = None.


(** The calls the module makes on the operating system. *)
Inductive syscall : Type :=
  | Rmtree (p : path)                                  (* shutil.rmtree(p, ignore_errors=True) *)
  | Mkdir (p : path)                                   (* p.mkdir(exist_ok=True) *)
  | WriteFile (p : path) (content : string)            (* open(p, "w") and f.write(content) *)
  | Exec (cmd : list string) (cwd : option path).      (* a child process *)

(** What a child process did: it could not be launched, or it ran and
    exited with a return code and its captured standard output. *)
Inductive proc_result : Type :=
  | LaunchFailed (e : oserror)
  | Exited (returncode : Z) (stdout : string).

Inductive sys_result : Type :=
  | Done
  | Failed (e : oserror)
  | Proc (r : proc_result).

(** [shutil.rmtree(p, ignore_errors=True)]: a directory goes with all that
    is below it; a missing path or a regular file raises inside and the
    error is ignored. *)
Definition remove_tree (p : path) (fs : filesystem) : filesystem :=
  match fs !! p with
  | Some Dir => filter (fun kv => ~ p `prefix_of` kv.1) fs
  | _ => fs
  end.

(** [Path.mkdir(exist_ok=True)], with [parents] left at [False]. *)
Definition make_dir (p : path) (fs : filesystem) : sys_result * filesystem :=
  match fs !! p with
  | Some Dir => (Done, fs)
  | Some (File _) => (Failed FileExistsError, fs)
  | None =>
      match fs !! parent p with
      | Some Dir => (Done, <[p := Dir]> fs)
      | Some (File _) => (Failed NotADirectoryError, fs)
      | None => (Failed FileNotFoundError, fs)
      end
  end.

(** [open(p, "w")] followed by one [write]: creates or truncates. *)
Definition write_file (p : path) (content : string) (fs : filesystem)
  : sys_result * filesystem :=
  match fs !! p with
  | Some Dir => (Failed IsADirectoryError, fs)
  | _ =>
      match fs !! parent p with
      | Some Dir => (Done, <[p := File content]> fs)
      | Some (File _) => (Failed NotADirectoryError, fs)
      | None => (Failed FileNotFoundError, fs)
      end
  end.

(** The events of a run, in the order they happen. *)
Inductive event : Type :=
  | LogInfo (msg : string)                  (* logger.info *)
  | LogError (msg : string) (cause : exn)   (* logger.error: the message, ending in the exception *)
  | Stdout (words : list string)            (* print of a list *)
  | Sys (c : syscall).

Record world : Type := World {
  fs : filesystem;
  log : list event
}.

Definition emit (e : event) : M world unit :=
  fun w => (Ok tt, World (fs w) (log w ++ [e])).

Definition logger_info (msg : string) : M world unit := emit (LogInfo msg).

(** *** The fixed file contents

    The texts are the source's literals with every double quote typed as a
    backquote; [template] puts the double quotes back. *)

Definition template_char (c : ascii) : ascii :=
  if Ascii.eqb c "`" then ascii_of_nat 34 else c.

Fixpoint template (s : string) : string :=
  match s with
  | EmptyString => EmptyString
  | String c r => String (template_char c) (template r)
  end.

(** Lines 198-213: the text written to [package.json]. *)
Definition package_json : string := template
"{
  `name`: `agent-tests`,
  `version`: `1.0.0`,
  `main`: `index.js`,
  `scripts`: {
  },
  `keywords`: [],
  `author`: ``,
  `license`: `ISC`,
  `devDependencies`: {
    `cypress`: `latest`,
    `uuid`: `latest`,
    `typescript`: `latest`
  }
}
            ".

(** Lines 220-223: the text written to [.gitignore]. *)
Definition gitignore : string := template
"
node_modules/
.cypress/
            ".

(** Lines 230-238: the text written to [cypress.config.ts]. *)
Definition cypress_config_ts : string := template
"import { defineConfig } from 'cypress'

export default defineConfig({
  defaultCommandTimeout: 10000,
  e2e: {
  
  },
})
".

(** Lines 244-252: the text written to [tsconfig.json]. *)
Definition tsconfig_json : string := template
"{
  `compilerOptions`: {
    `target`: `es5`,
    `lib`: [`es5`, `dom`],
    `types`: [`cypress`, `node`]
  },
  `include`: [`**/*.ts`]
}
".

(** Lines 259-264: the text written to [cypress.config.js]. *)
Definition cypress_config_js : string := template
"const { defineConfig } = require('cypress')

module.exports = defineConfig({
  defaultCommandTimeout: 10000,
})
".

(** *** The functions of the module *)

Section WithOS.

(** What child processes do is not in the source: given the command, its
    working directory and the file system, the platform answers with the
    process result and the file system it leaves behind. *)
Variable os_exec : list string -> option path -> filesystem -> proc_result * filesystem.

(** The effect of one call on the file system. *)
Definition sys_step (c : syscall) (f : filesystem) : sys_result * filesystem :=
  match c with
  | Rmtree p => (Done, remove_tree p f)
  | Mkdir p => make_dir p f
  | WriteFile p content => write_file p content f
  | Exec cmd cwd => let '(r, f') := os_exec cmd cwd f in (Proc r, f')
  end.

(** Perform a call: it is logged, and the file system moves on. *)
Definition perform (c : syscall) : M world sys_result :=
  fun w => let '(r, f') := sys_step c (fs w) in
           (Ok r, World f' (log w ++ [Sys c])).

(** The file system reached from [f] by the calls among [es]. *)
Fixpoint replay (es : list event) (f : filesystem) : filesystem :=
  match es with
  | [] => f
  | Sys c :: r => replay r (snd (sys_step c f))
  | _ :: r => replay r f
  end.

(** A computation tracks the file system when all it does to it is done
    by the calls it logs. *)
Definition tracks {A} (m : M world A) : Prop :=
  forall w, exists es,
    log (snd (m w)) = log w ++ es /\ fs (snd (m w)) = replay es (fs w).

(** A file-system call that raises [OSError] when it fails. *)
Definition fs_call (c : syscall) : M world unit :=
  r <- perform c ;;
  match r with
  | Failed e => raise (OSError e)
  | _ => ret tt
  end.

(** [subprocess.run(cmd, cwd=cwd)]: only a failed launch raises. *)
Definition subprocess_run (cmd : list string) (cwd : option path) : M world unit :=
  r <- perform (Exec cmd cwd) ;;
  match r with
  | Proc (LaunchFailed e) => raise (OSError e)
  | _ => ret tt
  end.

(** [subprocess.run(cmd, check=True, cwd=cwd)] *)
Definition subprocess_run_check (cmd : list string) (cwd : option path) : M world unit :=
  r <- perform (Exec cmd cwd) ;;
  match r with
  | Proc (LaunchFailed e) => raise (OSError e)
  | Proc (Exited rc _) => if rc =? 0 then ret tt else raise (CalledProcessError rc)
  | _ => ret tt
  end.

(** [subprocess.check_output(cmd)]: the captured bytes of a run that
    exited with code 0. *)
Definition subprocess_check_output (cmd : list string) : M world string :=
  r <- perform (Exec cmd None) ;;
  match r with
  | Proc (LaunchFailed e) => raise (OSError e)
  | Proc (Exited rc out) => if rc =? 0 then ret out else raise (CalledProcessError rc)
  | _ => ret ""
  end.

(** Lines 8-14 *)
Definition delete_entire_dir (dir : path) : M world unit :=
  fs_call (Rmtree dir).

(** [bytes.decode()] and [str.strip()] are Python's own; the probes only
    pass their results on. *)
Variable utf8_decode : string -> option string.
Variable strip : string -> string.

Definition decode (b : string) : M world string :=
  match utf8_decode b with
  | Some s => ret s
  | None => raise UnicodeDecodeError
  end.

(** [except subprocess.CalledProcessError: return False] and
    [except OSError: return False] *)
Definition return_false (e : exn) : M world pyval :=
  match e with
  | CalledProcessError _ => ret (PBool false)
  | OSError _ => ret (PBool false)
  | _ => raise e
  end.

(** Lines 17-30 *)
Definition check_for_node : M world pyval :=
  try_except
    (logger_info "Checking that Node.js is installed." ;;;
     version <- subprocess_check_output ["node"; "-v"] ;;
     when (truthy version)
       (s <- decode version ;; logger_info ("found node version: " +:+ strip s)) ;;;
     s <- decode version ;;
     ret (PStr (strip s)))
    (fun e =>
       emit (LogError "Could not find Node.js installation. Please install it from https://nodejs.org : " e) ;;;
       raise (TyperExit 0)).

(** Lines 33-45 *)
Definition check_for_npm : M world pyval :=
  try_except
    (logger_info "Checking that npm is installed." ;;;
     version <- subprocess_check_output ["npm"; "-v"] ;;
     when (truthy version)
       (s <- decode version ;; logger_info ("found npm version: " +:+ strip s)) ;;;
     s <- decode version ;;
     ret (PStr (strip s)))
    return_false.

(** Lines 48-60 *)
Definition check_for_playwright : M world pyval :=
  try_except
    (logger_info "Checking that Playwright is installed." ;;;
     version <- subprocess_check_output ["playwright"; "--version"] ;;
     when (truthy version)
       (s <- decode version ;; logger_info ("found playwright version: " +:+ strip s)) ;;;
     s <- decode version ;;
     ret (PStr (strip s)))
    return_false.

(** Lines 63-75 *)
Definition check_for_cypress : M world pyval :=
  try_except
    (logger_info "Checking that Cypress is installed." ;;;
     version <- subprocess_check_output ["cypress"; "--version"] ;;
     when (truthy version)
       (s <- decode version ;; logger_info ("found cypress version: " +:+ strip s)) ;;;
     s <- decode version ;;
     ret (PStr (strip s)))
    return_false.

(** Lines 78-132 *)
Definition scaffold_playwright (test_dir : path) (language : string) (clean : bool)
  : M world unit :=
  when clean (delete_entire_dir test_dir) ;;;
  fs_call (Mkdir test_dir) ;;;
  if String.eqb language "python" then ret tt else
  logger_info "Running the playwright install command." ;;;
  let lang := if String.eqb language "typescript" then "Typescript" else "js" in
  let cmd := ["npm"; "init"; "playwright"; "--"; "--yes"; "--quiet"; "--install-deps";
              "--no-examples"; "--browser=chromium"; "--lang=" +:+ lang; "."] in
  emit (Stdout cmd) ;;;
  subprocess_run cmd (Some test_dir) ;;;
  logger_info "Adding dev dependencies." ;;;
  subprocess_run ["npm"; "install"; "uuid"; "--save-dev"] (Some test_dir).

(** Lines 135-150 *)
Definition check_for_playwright_browsers (test_dir : path) : M world pyval :=
  r <- try_except
         (logger_info "Checking that Playwright browsers are installed." ;;;
          subprocess_run_check ["playwright"; "install"; "chromium"] (Some test_dir) ;;;
          ret None)
         (fun e => v <- return_false e ;; ret (Some v)) ;;
  match r with
  | Some v => ret v
  | None => ret (PBool true)
  end.

(** Lines 153-165: after the [try] statement the function ends, so a run
    that raised nothing returns [None]. *)
Definition check_for_cypress_installation (test_dir : path) : M world pyval :=
  r <- try_except
         (logger_info "Checking that Cypress is installed." ;;;
          subprocess_run_check ["npx"; "--yes"; "cypress"; "install"] (Some test_dir) ;;;
          ret None)
         (fun e => v <- return_false e ;; ret (Some v)) ;;
  match r with
  | Some v => ret v
  | None => ret PNone
  end.

(** Lines 168-271 *)
Definition scaffold_cypress (test_dir : path) (language : string) (clean : bool)
  : M world unit :=
  when clean (delete_entire_dir test_dir) ;;;
  fs_call (Mkdir test_dir) ;;;
  if String.eqb language "python" then ret tt else
  logger_info "Setting up cypress environment." ;;;
  fs_call (WriteFile (test_dir // "package.json") package_json) ;;;
  logger_info "Adding a .gitignore file." ;;;
  fs_call (WriteFile (test_dir // ".gitignore") gitignore) ;;;
  when (String.eqb language "typescript")
    (logger_info "Adding a cypress.config.ts file." ;;;
     fs_call (WriteFile (test_dir // "cypress.config.ts") cypress_config_ts) ;;;
     logger_info "Adding a tsconfig.json file." ;;;
     fs_call (WriteFile (test_dir // "tsconfig.json") tsconfig_json)) ;;;
  when (String.eqb language "javascript")
    (logger_info "Adding a cypress.config.js file." ;;;
     fs_call (WriteFile (test_dir // "cypress.config.js") cypress_config_js)) ;;;
  logger_info "Installing npm dependencies." ;;;
  subprocess_run ["npm"; "install"] (Some test_dir).

End WithOS.

(** *** Vocabulary for the statements about the scaffolder *)

(** A file system in which [td] can be scaffolded: well formed, [td] is
    not the root, its parent is a directory, and [td] itself is a directory
    or not there. *)
Definition scaffoldable (f : filesystem) (td : path) : bool :=
  wf f && bool_decide (td <> [])
  && bool_decide (f !! parent td = Some Dir)
  && bool_decide (f !! td = None \/ f !! td = Some Dir).


(** What [subprocess.run] without [check] makes of a process result. *)
Definition run_outcome (r : proc_result) : result unit :=
  match r with
  | LaunchFailed e => Raise (OSError e)
  | Exited _ _ => Ok tt
  end.

(** The exception a checked invocation raises, if the process failed:
    it could not be launched, or it exited with a non-zero code. *)
Definition invocation_failure (r : proc_result) : option exn :=
  match r with
  | LaunchFailed e => Some (OSError e)
  | Exited rc _ => if rc =? 0 then None else Some (CalledProcessError rc)
  end.

Definition fs_outcome (r : sys_result) : result unit :=
  match r with
  | Failed e => Raise (OSError e)
  | _ => Ok tt
  end.

Definition is_sys (e : event) : bool :=
  match e with Sys _ => true | _ => false end.

(** The body the four version probes have in common. *)
Definition query_version
    (os_exec : list string -> option path -> filesystem -> proc_result * filesystem)
    (utf8_decode : string -> option string) (strip : string -> string)
    (checking found : string) (cmd : list string) : M world pyval :=
  logger_info checking ;;;
  version <- subprocess_check_output os_exec cmd ;;
  when (truthy version)
    (s <- decode utf8_decode version ;; logger_info (found +:+ strip s)) ;;;
  s <- decode utf8_decode version ;;
  ret (PStr (strip s)).

(** *** Sample platforms and file systems *)

(** Every command is found and exits with 0, leaving the files alone. *)
Definition all_succeed
  : list string -> option path -> filesystem -> proc_result * filesystem :=
  fun _ _ f => (Exited 0 "", f).

(** No command is found. *)
Definition nothing_installed
  : list string -> option path -> filesystem -> proc_result * filesystem :=
  fun _ _ f => (LaunchFailed FileNotFoundError, f).

(** A [tests] directory with earlier contents. *)
Definition tests_dir : filesystem :=
  {[ [] := Dir; ["tests"] := Dir; ["tests"; "old.spec.ts"] := File "stale";
     ["tests"; "sub"] := Dir; ["tests"; "sub"; "a.txt"] := File "" ]}.

(** A computation leaves the path [q] alone: whatever is at [q], or that
    nothing is, is the same after it as before. *)
Definition leaves {A} (q : path) (m : M world A) : Prop :=
  forall w, fs (snd (m w)) !! q = fs w !! q.

(** The names [scaffold_cypress] may write in the test directory. *)
Definition cypress_names : list string :=
  ["package.json"; ".gitignore"; "cypress.config.ts"; "tsconfig.json";
   "cypress.config.js"].

(** The command line of lines 109-121 for a language. *)
Definition playwright_init (language : string) : list string :=
  ["npm"; "init"; "playwright"; "--"; "--yes"; "--quiet"; "--install-deps";
   "--no-examples"; "--browser=chromium";
   "--lang=" +:+ (if String.eqb language "typescript" then "Typescript" else "js");
   "."].

(** Every command is found, prints [out] and exits with [rc]. *)
Definition all_exit (rc : Z) (out : string)
  : list string -> option path -> filesystem -> proc_result * filesystem :=
  fun _ _ f => (Exited rc out, f).

(** A file system where [tests] is a regular file. *)
Definition tests_is_file : filesystem :=
  {[ [] := Dir; ["tests"] := File "not a directory" ]}.

End Scaffold.

(** * Facts

    First the laws of the monad that the proofs use, then the facts about
    [start], then those about the scaffolder. *)

Section MonadFacts.
Context {S A B : Type}.

Lemma bind_ok (m : M S A) (k : A -> M S B) s a s' :
  m s = (Ok a, s') -> bind m k s = k a s'.
Proof. intros H. unfold bind. now rewrite H. Qed.

Lemma bind_raise (m : M S A) (k : A -> M S B) s e s' :
  m s = (Raise e, s') -> bind m k s = (Raise e, s').
Proof. intros H. unfold bind. now rewrite H. Qed.

End MonadFacts.

(** ** Facts about [start] *)

Module StartSpec.
Import Start.

(** *** The overrides in closed form *)

Lemma sections_id cfg ag cf :
  cfg !! "agent" = Some ag -> cfg !! "config" = Some cf -> sections ag cf cfg = cfg.
Proof.
  intros Ha Hc. unfold sections.
  rewrite (insert_id cfg "agent" ag Ha). now apply insert_id.
Qed.

Lemma setitem2_agent ag cf cfg key v t :
  setitem2 (sections ag cf cfg) "agent" key v t
  = (Ok (sections (<[key := v]> ag) cf cfg), t).
Proof.
  unfold setitem2, getitem, bind, sections.
  rewrite lookup_insert_ne by done. rewrite lookup_insert_eq. cbn.
  do 2 f_equal. rewrite insert_insert_ne by done. rewrite insert_insert_eq.
  done.
Qed.

Lemma setitem2_config ag cf cfg key v t :
  setitem2 (sections ag cf cfg) "config" key v t
  = (Ok (sections ag (<[key := v]> cf) cfg), t).
Proof.
  unfold setitem2, getitem, bind, sections.
  rewrite lookup_insert_eq. cbn. do 2 f_equal. now rewrite insert_insert_eq.
Qed.

Lemma overrides_sections a ag cf cfg t :
  overrides a (sections ag cf cfg) t
  = (Ok (sections (merged_agent a ag) (merged_config a cf) cfg), t).
Proof.
  unfold overrides, merged_agent, merged_config.
  erewrite bind_ok; cycle 1.
  { instantiate (2 := sections (set_some "prompt" (prompt a) ag) cf cfg).
    destruct (prompt a); cbn; [apply setitem2_agent | reflexivity]. }
  erewrite bind_ok; cycle 1.
  { instantiate (2 := sections (set_some "url" (url a) (set_some "prompt" (prompt a) ag)) cf cfg).
    destruct (url a); cbn; [apply setitem2_agent | reflexivity]. }
  erewrite bind_ok; cycle 1.
  { instantiate (2 := sections _ (set_when (headless a) "headless" (PBool true) cf) cfg).
    destruct (headless a); cbn; [apply setitem2_config | reflexivity]. }
  erewrite bind_ok; cycle 1.
  { instantiate (2 := sections _ (set_when (debug a) "log_level" (PStr "DEBUG") _) cfg).
    destruct (debug a); cbn; [apply setitem2_config | reflexivity]. }
  erewrite bind_ok; cycle 1.
  { instantiate (2 := sections _ (set_when (clean a) "clean" (PBool true) _) cfg).
    destruct (clean a); cbn; [apply setitem2_config | reflexivity]. }
  erewrite bind_ok; cycle 1.
  { instantiate (2 := sections (set_when (truthy (language a)) "language" (PStr (language a)) _) _ cfg).
    destruct (truthy (language a)); cbn; [apply setitem2_agent | reflexivity]. }
  erewrite bind_ok; cycle 1.
  { instantiate (2 := sections (set_when (truthy (framework a)) "framework" (PStr (framework a)) _) _ cfg).
    destruct (truthy (framework a)); cbn; [apply setitem2_agent | reflexivity]. }
  reflexivity.
Qed.

Lemma entry_sections_agent ag cf cfg k :
  entry (sections ag cf cfg) "agent" k = ag !! k.
Proof.
  unfold entry, sections. rewrite lookup_insert_ne by done.
  now rewrite lookup_insert_eq.
Qed.

Lemma entry_sections_config ag cf cfg k :
  entry (sections ag cf cfg) "config" k = cf !! k.
Proof. unfold entry, sections. now rewrite lookup_insert_eq. Qed.

Lemma lookup_set_when c k v d k' :
  set_when c k v d !! k' = if c && bool_decide (k = k') then Some v else d !! k'.
Proof.
  unfold set_when. destruct c; cbn; [|done].
  rewrite lookup_insert. now repeat case_decide.
Qed.

Lemma lookup_set_some k o d k' :
  set_some k o d !! k' =
  match o with
  | Some s => if bool_decide (k = k') then Some (PStr s) else d !! k'
  | None => d !! k'
  end.
Proof.
  unfold set_some. destruct o; [|done].
  rewrite lookup_insert. now repeat case_decide.
Qed.

Lemma present_true {A} (o : option A) : present o = true -> exists x, o = Some x.
Proof. destruct o; [eauto | discriminate]. Qed.

(** The overrides succeed on a configuration with both sections and leave
    no trace. *)
Lemma overrides_ok a cfg ag cf t :
  cfg !! "agent" = Some ag -> cfg !! "config" = Some cf ->
  overrides a cfg t
  = (Ok (sections (merged_agent a ag) (merged_config a cf) cfg), t).
Proof.
  intros Ha Hc. rewrite <- (sections_id cfg ag cf Ha Hc) at 1.
  apply overrides_sections.
Qed.

Lemma getitem2_entry cfg sec key v t :
  entry cfg sec key = Some v -> getitem2 cfg sec key t = (Ok v, t).
Proof.
  unfold entry, getitem2, getitem, bind. destruct (cfg !! sec) as [d|]; cbn; [|done].
  intros ->. done.
Qed.

Lemma get2_field cfg sec key t :
  present (cfg !! sec) = true -> get2 cfg sec key t = (Ok (field cfg sec key), t).
Proof.
  unfold field, entry, get2, getitem, bind. destruct (cfg !! sec) as [d|]; cbn; [|done].
  done.
Qed.

Lemma field_entry cfg sec key v : entry cfg sec key = Some v -> field cfg sec key = v.
Proof. unfold field. now intros ->. Qed.

Section Runs.
Variable TEST_DIR : string.

(** The actions succeed when the three settings are there; what they do is
    [action_events]. *)
Lemma actions_ok cfg t :
  present (entry cfg "config" "log_level") = true ->
  present (entry cfg "config" "headless") = true ->
  present (entry cfg "config" "clean") = true ->
  actions TEST_DIR cfg t = (Ok tt, t ++ action_events TEST_DIR cfg).
Proof.
  intros [lvl Hl]%present_true [hl Hh]%present_true [cl Hc]%present_true.
  unfold actions, action_events, says.
  rewrite (field_entry _ _ _ _ Hl), (field_entry _ _ _ _ Hh), (field_entry _ _ _ _ Hc).
  unfold bind, when, emit, ret.
  rewrite (getitem2_entry _ _ _ _ _ Hl).
  destruct (String.eqb (lower (str lvl)) "debug"); cbn [fst snd];
    rewrite (getitem2_entry _ _ _ _ _ Hh);
    destruct (String.eqb (lower (str hl)) "true"); cbn [fst snd];
    rewrite (getitem2_entry _ _ _ _ _ Hc);
    destruct (String.eqb (lower (str cl)) "true"); cbn [fst snd];
    rewrite <- ?app_assoc; cbn [app]; rewrite ?app_nil_r; reflexivity.
Qed.

Lemma action_events_no_outcome cfg :
  forallb (fun e => negb (is_outcome e)) (action_events TEST_DIR cfg) = true.
Proof.
  unfold action_events.
  destruct (says "debug" _), (says "true" (field cfg "config" "headless")),
    (says "true" (field cfg "config" "clean")); reflexivity.
Qed.

(** Validation and the agent call, by cases on the two required fields. *)
Lemma validate_call_agent cfg t :
  present (cfg !! "agent") = true ->
  bind (validate cfg) (fun _ => call_agent cfg) t =
  match field cfg "agent" "url", field cfg "agent" "prompt" with
  | PNone, _ => (Raise (TyperExit 0), t ++ [ErrPrint (missing_msg "url")])
  | _, PNone => (Raise (TyperExit 0), t ++ [ErrPrint (missing_msg "prompt")])
  | u, p => (Ok tt, t ++ [Agent p u])
  end.
Proof.
  intros Hp. unfold validate, for_each.
  unfold bind at 1 2 3. rewrite (get2_field _ _ _ _ Hp).
  assert (Hu : forall u, field cfg "agent" "url" = u -> u <> PNone ->
                         entry cfg "agent" "url" = Some u).
  { intros u Hu Hne. unfold field in Hu.
    destruct (entry cfg "agent" "url"); cbn in Hu; congruence. }
  assert (Hq : forall u, field cfg "agent" "prompt" = u -> u <> PNone ->
                         entry cfg "agent" "prompt" = Some u).
  { intros u Hu' Hne. unfold field in Hu'.
    destruct (entry cfg "agent" "prompt"); cbn in Hu'; congruence. }
  destruct (field cfg "agent" "url") as [|ub|uz|us] eqn:Eu; cbn;
    try reflexivity;
    unfold bind at 1 2; rewrite (get2_field _ _ _ _ Hp);
    destruct (field cfg "agent" "prompt") as [|pb|pz|ps] eqn:Ep; cbn;
    try reflexivity;
    unfold call_agent;
    (erewrite bind_ok by (apply getitem2_entry, Hq; [reflexivity | discriminate]));
    (erewrite bind_ok by (apply getitem2_entry, Hu; [reflexivity | discriminate]));
    reflexivity.
Qed.

(** How every entry of the effective configuration comes about. *)
Lemma overrides_entries a cfg t :
  present (cfg !! "agent") = true -> present (cfg !! "config") = true ->
  overrides a cfg t = (Ok (resolved a cfg), t) /\
  present (resolved a cfg !! "agent") = true /\
  present (resolved a cfg !! "config") = true /\
  entry (resolved a cfg) "agent" "prompt"
    = match prompt a with Some p => Some (PStr p) | None => entry cfg "agent" "prompt" end /\
  entry (resolved a cfg) "agent" "url"
    = match url a with Some u => Some (PStr u) | None => entry cfg "agent" "url" end /\
  entry (resolved a cfg) "agent" "language"
    = (if truthy (language a) then Some (PStr (language a)) else entry cfg "agent" "language") /\
  entry (resolved a cfg) "agent" "framework"
    = (if truthy (framework a) then Some (PStr (framework a)) else entry cfg "agent" "framework") /\
  entry (resolved a cfg) "config" "headless"
    = (if headless a then Some (PBool true) else entry cfg "config" "headless") /\
  entry (resolved a cfg) "config" "log_level"
    = (if debug a then Some (PStr "DEBUG") else entry cfg "config" "log_level") /\
  entry (resolved a cfg) "config" "clean"
    = (if clean a then Some (PBool true) else entry cfg "config" "clean").
Proof.
  intros [ag Ha]%present_true [cf Hc]%present_true.
  assert (Hr : resolved a cfg = sections (merged_agent a ag) (merged_config a cf) cfg).
  { unfold resolved. now rewrite (overrides_ok a cfg ag cf [] Ha Hc). }
  rewrite Hr. split; [now apply overrides_ok|].
  assert (Ea : forall k, entry cfg "agent" k = ag !! k).
  { intros k. unfold entry. now rewrite Ha. }
  assert (Ec : forall k, entry cfg "config" k = cf !! k).
  { intros k. unfold entry. now rewrite Hc. }
  rewrite !entry_sections_agent, !entry_sections_config, !Ea, !Ec.
  unfold merged_agent, merged_config.
  repeat split.
  1: { unfold sections. rewrite lookup_insert_ne by done. now rewrite lookup_insert_eq. }
  1: { unfold sections. now rewrite lookup_insert_eq. }
  all: rewrite ?lookup_set_when, ?lookup_set_some;
    repeat match goal with
      | |- context [bool_decide (?x = ?y)] =>
          first [ rewrite (bool_decide_eq_true_2 (x = y)) by reflexivity
                | rewrite (bool_decide_eq_false_2 (x = y)) by discriminate ]
      end;
    rewrite ?andb_false_r, ?andb_true_r;
    destruct (url a), (prompt a); reflexivity.
Qed.

Lemma loaded_sections cfg :
  loaded cfg = true ->
  present (cfg !! "agent") = true /\ present (cfg !! "config") = true /\
  present (entry cfg "config" "headless") = true /\
  present (entry cfg "config" "log_level") = true /\
  present (entry cfg "config" "clean") = true.
Proof.
  unfold loaded. rewrite !andb_true_iff. intros [[[H1 H2] H3] H4].
  repeat split; try assumption.
  unfold entry in H2. now destruct (cfg !! "config").
Qed.

Lemma loaded_resolved a cfg : loaded cfg = true -> loaded (resolved a cfg) = true.
Proof.
  intros (Ha & Hc & Hh & Hl & Hcl)%loaded_sections.
  destruct (overrides_entries a cfg [] Ha Hc)
    as (_ & Ha' & _ & _ & _ & _ & _ & Eh & El & Ecl).
  unfold loaded. rewrite Ha', Eh, El, Ecl.
  destruct (headless a), (debug a), (clean a); cbn; rewrite ?Hh, ?Hl, ?Hcl; reflexivity.
Qed.

(** A whole run on a loaded configuration: the actions, then either the
    message for the first missing field and the exit, or the agent. *)
Lemma start_run a cfg :
  loaded cfg = true ->
  start TEST_DIR a cfg [] =
  let cfg' := resolved a cfg in
  let acts := action_events TEST_DIR cfg' in
  match field cfg' "agent" "url", field cfg' "agent" "prompt" with
  | PNone, _ => (Raise (TyperExit 0), acts ++ [ErrPrint (missing_msg "url")])
  | _, PNone => (Raise (TyperExit 0), acts ++ [ErrPrint (missing_msg "prompt")])
  | u, p => (Ok tt, acts ++ [Agent p u])
  end.
Proof.
  intros Hl. pose proof (loaded_resolved a cfg Hl) as Hl'.
  apply loaded_sections in Hl as (Ha & Hc & _).
  apply loaded_sections in Hl' as (Ha' & _ & Hh' & Hl' & Hc').
  destruct (overrides_entries a cfg [] Ha Hc) as (Ho & _).
  unfold start. rewrite (bind_ok _ _ _ _ _ Ho).
  rewrite (bind_ok _ _ _ _ _ (actions_ok (resolved a cfg) [] Hl' Hh' Hc')).
  cbn [app]. now apply validate_call_agent.
Qed.

End Runs.

(** C1, at the input on which the code departs from it: the file sets
    [agent.language = "typescript"] and [agent.framework = "cypress"], and
    the CLI passes neither option, so the arguments carry the defaults of
    the signature.  The overrides run without error, and the effective
    language and framework are the defaults [python] and [playwright], not
    the values of the file: the tests [if language:] and [if framework:]
    hold for the non-empty defaults. *)
Theorem C1_default_language_and_framework_replace_file_values :
  entry example_config "agent" "language" = Some (PStr "typescript") /\
  entry example_config "agent" "framework" = Some (PStr "cypress") /\
  language default_args = "python" /\
  framework default_args = "playwright" /\
  fst (overrides default_args example_config []) = Ok (resolved default_args example_config) /\
  entry (resolved default_args example_config) "agent" "language" = Some (PStr "python") /\
  entry (resolved default_args example_config) "agent" "framework" = Some (PStr "playwright").
Proof. vm_compute. repeat split; reflexivity. Qed.

Lemma cli_strings_win a cfg :
  present (cfg !! "agent") = true -> present (cfg !! "config") = true ->
  (forall p, prompt a = Some p ->
     entry (resolved a cfg) "agent" "prompt" = Some (PStr p)) /\
  (forall u, url a = Some u ->
     entry (resolved a cfg) "agent" "url" = Some (PStr u)) /\
  (language a <> "" ->
     entry (resolved a cfg) "agent" "language" = Some (PStr (language a))) /\
  (framework a <> "" ->
     entry (resolved a cfg) "agent" "framework" = Some (PStr (framework a))) /\
  (prompt a = None ->
     entry (resolved a cfg) "agent" "prompt" = entry cfg "agent" "prompt") /\
  (url a = None ->
     entry (resolved a cfg) "agent" "url" = entry cfg "agent" "url").
Proof.
  intros Ha Hc.
  destruct (overrides_entries a cfg [] Ha Hc)
    as (_ & _ & _ & Ep & Eu & El & Ef & _).
  assert (Ht : forall s, s <> "" -> truthy s = true).
  { intros s Hs. unfold truthy. apply negb_true_iff, String.eqb_neq, Hs. }
  repeat split.
  - intros p Hp. now rewrite Ep, Hp.
  - intros u Hu. now rewrite Eu, Hu.
  - intros Hl. now rewrite El, (Ht _ Hl).
  - intros Hf. now rewrite Ef, (Ht _ Hf).
  - intros Hp. now rewrite Ep, Hp.
  - intros Hu. now rewrite Eu, Hu.
Qed.

(** *** Whole runs of [start] *)

Section Claims.
Variable TEST_DIR : string.

(** C2: on a loaded configuration the overrides succeed, the actions emit
    neither a message nor an agent call, and then: if [agent.url] is
    missing ([None]) after the overrides, [start] prints the message that
    names [agent.url], the [config.toml] key and the [--url] option, and
    ends with [typer.Exit] of code 0; if [agent.url] is there and
    [agent.prompt] is missing, the same for [prompt]; in both cases the
    trace has no agent call.  When both are there, the run returns and its
    last event is the call of the agent with the resolved prompt and url. *)
Theorem C2_missing_field_exits_without_agent (a : args) (cfg : config) :
  loaded cfg = true ->
  let cfg' := resolved a cfg in
  let acts := action_events TEST_DIR cfg' in
  fst (overrides a cfg []) = Ok cfg' /\
  forallb (fun e => negb (is_outcome e)) acts = true /\
  (field cfg' "agent" "url" = PNone ->
   start TEST_DIR a cfg [] =
     (Raise (TyperExit 0),
      acts ++ [ErrPrint "Please set agent.url in the config.toml file or pass it as the --url CLI option."])) /\
  (field cfg' "agent" "url" <> PNone -> field cfg' "agent" "prompt" = PNone ->
   start TEST_DIR a cfg [] =
     (Raise (TyperExit 0),
      acts ++ [ErrPrint "Please set agent.prompt in the config.toml file or pass it as the --prompt CLI option."])) /\
  (field cfg' "agent" "url" <> PNone -> field cfg' "agent" "prompt" <> PNone ->
   start TEST_DIR a cfg [] =
     (Ok tt, acts ++ [Agent (field cfg' "agent" "prompt") (field cfg' "agent" "url")])).
Proof.
  intros Hl cfg' acts. pose proof (start_run TEST_DIR a cfg Hl) as Hrun.
  cbv zeta in Hrun. fold cfg' in Hrun. fold acts in Hrun.
  pose proof (loaded_sections cfg Hl) as (Ha & Hc & _).
  destruct (overrides_entries a cfg [] Ha Hc) as (Ho & _).
  split; [now rewrite Ho|].
  split; [apply action_events_no_outcome|].
  repeat split.
  - intros Hu. now rewrite Hrun, Hu.
  - intros Hu Hp. rewrite Hrun, Hp. now destruct (field cfg' "agent" "url").
  - intros Hu Hp. rewrite Hrun.
    destruct (field cfg' "agent" "url"), (field cfg' "agent" "prompt"); congruence.
Qed.


(** C4: for [clean], [debug] and [headless], a CLI flag that is false
    leaves the file's setting ([config.clean], [config.log_level],
    [config.headless]) as it was loaded, whatever it is, so a true setting
    of the file survives; only a flag that is true writes the
    effective configuration ([True], [DEBUG], [True]). *)
Theorem C4_false_flag_keeps_file_setting (a : args) (cfg : config) :
  present (cfg !! "agent") = true -> present (cfg !! "config") = true ->
  let cfg' := resolved a cfg in
  fst (overrides a cfg []) = Ok cfg' /\
  (clean a = false -> entry cfg' "config" "clean" = entry cfg "config" "clean") /\
  (debug a = false -> entry cfg' "config" "log_level" = entry cfg "config" "log_level") /\
  (headless a = false -> entry cfg' "config" "headless" = entry cfg "config" "headless") /\
  (clean a = true -> entry cfg' "config" "clean" = Some (PBool true)) /\
  (debug a = true -> entry cfg' "config" "log_level" = Some (PStr "DEBUG")) /\
  (headless a = true -> entry cfg' "config" "headless" = Some (PBool true)).
Proof.
  intros Ha Hc cfg'.
  destruct (overrides_entries a cfg [] Ha Hc)
    as (Ho & _ & _ & _ & _ & _ & _ & Eh & El & Ec).
  fold cfg' in Ho, Eh, El, Ec.
  split; [now rewrite Ho|].
  repeat split; intros H; rewrite ?Ec, ?El, ?Eh, H; reflexivity.
Qed.

(** C10: a run ends with the exit of the validation exactly when
    [agent.url] or [agent.prompt] is missing ([None]).  An empty string is
    not missing: with [agent.prompt] equal to the empty string and
    [agent.url] there, the run returns after calling the agent with the
    empty prompt, and likewise for an empty [agent.url]. *)
Theorem C10_empty_string_passes_validation (a : args) (cfg : config) :
  loaded cfg = true ->
  let cfg' := resolved a cfg in
  let acts := action_events TEST_DIR cfg' in
  (fst (start TEST_DIR a cfg []) = Raise (TyperExit 0) <->
   field cfg' "agent" "url" = PNone \/ field cfg' "agent" "prompt" = PNone) /\
  (field cfg' "agent" "prompt" = PStr "" -> field cfg' "agent" "url" <> PNone ->
   start TEST_DIR a cfg [] =
     (Ok tt, acts ++ [Agent (PStr "") (field cfg' "agent" "url")])) /\
  (field cfg' "agent" "url" = PStr "" -> field cfg' "agent" "prompt" <> PNone ->
   start TEST_DIR a cfg [] =
     (Ok tt, acts ++ [Agent (field cfg' "agent" "prompt") (PStr "")])).
Proof.
  intros Hl cfg' acts. pose proof (start_run TEST_DIR a cfg Hl) as Hrun.
  cbv zeta in Hrun. fold cfg' in Hrun. fold acts in Hrun.
  rewrite Hrun. repeat split.
  - destruct (field cfg' "agent" "url"), (field cfg' "agent" "prompt");
      cbn; intros; first [discriminate | now left | now right].
  - destruct (field cfg' "agent" "url"), (field cfg' "agent" "prompt");
      cbn; intros [?|?]; first [discriminate | reflexivity].
  - intros Hp Hu. rewrite Hp. destruct (field cfg' "agent" "url"); congruence.
  - intros Hu Hp. rewrite Hu. destruct (field cfg' "agent" "prompt"); congruence.
Qed.

End Claims.

Lemma C2_witness :
  start "tests" default_args no_prompt_config [] =
  (Raise (TyperExit 0),
   [LoggerInfo "Deleting files in the tests directory"; Popen "rm -rf tests/*";
    ErrPrint "Please set agent.prompt in the config.toml file or pass it as the --prompt CLI option."]).
Proof.
  destruct (C2_missing_field_exits_without_agent "tests" default_args no_prompt_config)
    as (_ & _ & _ & H & _).
  - vm_compute. reflexivity.
  - rewrite H.
    + vm_compute. reflexivity.
    + vm_compute. discriminate.
    + vm_compute. reflexivity.
Defined.


Lemma C4_witness :
  entry (resolved default_args example_config) "config" "clean" = Some (PBool true).
Proof.
  destruct (C4_false_flag_keeps_file_setting default_args example_config)
    as (_ & H & _).
  - vm_compute. reflexivity.
  - vm_compute. reflexivity.
  - rewrite H; reflexivity.
Defined.

Lemma C10_witness :
  start "tests" no_language_args empty_prompt_config [] =
  (Ok tt, [LoggerInfo "Deleting files in the tests directory"; Popen "rm -rf tests/*";
           Agent (PStr "") (PStr "http://example.com")]).
Proof.
  destruct (C10_empty_string_passes_validation "tests" no_language_args empty_prompt_config)
    as (_ & H & _).
  - vm_compute. reflexivity.
  - rewrite H.
    + vm_compute. reflexivity.
    + vm_compute. reflexivity.
    + vm_compute. discriminate.
Defined.

End StartSpec.

(** ** Facts about the scaffolder *)

Module ScaffoldSpec.
Import Scaffold.

(** *** Paths and the file system *)




Lemma prefix_join p n : p `prefix_of` p // n.
Proof. now exists [n]. Qed.

Lemma parent_length (p : path) : p <> [] -> length p = S (length (parent p)).
Proof.
  intros Hp. destruct (exists_last Hp) as (q & x & ->).
  unfold parent. rewrite removelast_last, length_app. cbn. lia.
Qed.

Lemma not_prefix_parent (p : path) : p <> [] -> ~ p `prefix_of` parent p.
Proof.
  intros Hp Hpre. apply prefix_length in Hpre.
  rewrite (parent_length p Hp) in Hpre. lia.
Qed.

Lemma wf_parent f p n :
  wf f = true -> f !! p = Some n -> p <> [] -> f !! parent p = Some Dir.
Proof.
  unfold wf. intros Hwf%bool_decide_eq_true Hp Hne.
  destruct (map_Forall_lookup_1 _ _ _ _ Hwf Hp) as [->|H]; [done | exact H].
Qed.

(** In a well-formed file system nothing lies below a missing path. *)
Lemma wf_absent_below f (p : path) (k : list string) :
  wf f = true -> f !! p = None -> f !! (p ++ k) = None.
Proof.
  intros Hwf Hp. induction k as [|x k IH] using rev_ind.
  - now rewrite app_nil_r.
  - destruct (f !! (p ++ k ++ [x])) as [n|] eqn:E; [|done].
    apply (wf_parent f _ n Hwf) in E.
    + unfold parent in E. rewrite app_assoc, removelast_last in E.
      rewrite IH in E. discriminate.
    + destruct p; destruct k; discriminate.
Qed.

Lemma lookup_remove_tree_dir f (p q : path) :
  f !! p = Some Dir ->
  remove_tree p f !! q = if decide (p `prefix_of` q) then None else f !! q.
Proof.
  intros Hp. unfold remove_tree. rewrite Hp.
  destruct (decide (p `prefix_of` q)) as [Hpre|Hpre].
  - apply map_lookup_filter_None. right. intros x _ Hn. now apply Hn.
  - destruct (f !! q) as [n|] eqn:E.
    + apply map_lookup_filter_Some. split; [done | exact Hpre].
    + apply map_lookup_filter_None. left. exact E.
Qed.

Lemma remove_tree_absent f (p : path) : f !! p = None -> remove_tree p f = f.
Proof. intros Hp. unfold remove_tree. now rewrite Hp. Qed.

Lemma scaffoldable_unfold f td :
  scaffoldable f td = true ->
  wf f = true /\ td <> [] /\ f !! parent td = Some Dir /\
  (f !! td = None \/ f !! td = Some Dir).
Proof.
  unfold scaffoldable. rewrite !andb_true_iff, !bool_decide_eq_true. tauto.
Qed.

(** After the recursive delete the directory and all below it are gone,
    and nothing else has changed. *)
Lemma remove_tree_spec f td :
  scaffoldable f td = true ->
  (forall q, td `prefix_of` q -> remove_tree td f !! q = None) /\
  (forall q, ~ td `prefix_of` q -> remove_tree td f !! q = f !! q).
Proof.
  intros (Hwf & Hne & Hpar & [Habs|Hdir])%scaffoldable_unfold.
  - rewrite (remove_tree_absent f td Habs). split; [|done].
    intros q [k ->]. now apply wf_absent_below.
  - split; intros q Hq; rewrite (lookup_remove_tree_dir f td q Hdir);
      now destruct (decide (td `prefix_of` q)).
Qed.

Lemma make_dir_ok f td :
  f !! parent td = Some Dir -> f !! td = None \/ f !! td = Some Dir ->
  make_dir td f = (Done, <[td := Dir]> f).
Proof.
  intros Hpar [H|H]; unfold make_dir; rewrite H.
  - now rewrite Hpar.
  - now rewrite insert_id.
Qed.


(** Delete, then create: the directory is there and empty. *)
Lemma clean_then_mkdir f td :
  scaffoldable f td = true ->
  make_dir td (remove_tree td f) = (Done, <[td := Dir]> (remove_tree td f)) /\
  empty_dir (<[td := Dir]> (remove_tree td f)) td /\
  (forall q, ~ td `prefix_of` q -> <[td := Dir]> (remove_tree td f) !! q = f !! q).
Proof.
  intros Hs. pose proof (remove_tree_spec f td Hs) as [Hin Hout].
  apply scaffoldable_unfold in Hs as (Hwf & Hne & Hpar & Hcase).
  split; [|split].
  - apply make_dir_ok.
    + rewrite Hout; [done | now apply not_prefix_parent].
    + left. now apply Hin.
  - split; [apply lookup_insert_eq|].
    intros q Hq Hqne. rewrite lookup_insert_ne by done. now apply Hin.
  - intros q Hq. rewrite lookup_insert_ne; [now apply Hout|].
    intros ->. now apply Hq.
Qed.


(** *** Computations that track the file system *)

Section Tracking.
Variable os_exec : list string -> option path -> filesystem -> proc_result * filesystem.

Lemma replay_app es1 es2 f :
  replay os_exec (es1 ++ es2) f = replay os_exec es2 (replay os_exec es1 f).
Proof.
  revert f. induction es1 as [|e es1 IH]; intros f; [done|].
  destruct e; cbn; apply IH.
Qed.

Lemma tracks_ret {A} (a : A) : tracks os_exec (ret a).
Proof. intros w. exists []. cbn. now rewrite app_nil_r. Qed.

Lemma tracks_raise {A} e : tracks os_exec (@raise world A e).
Proof. intros w. exists []. cbn. now rewrite app_nil_r. Qed.

Lemma tracks_bind {A B} (m : M world A) (k : A -> M world B) :
  tracks os_exec m -> (forall a, tracks os_exec (k a)) -> tracks os_exec (bind m k).
Proof.
  intros Hm Hk w. destruct (Hm w) as (es1 & Hl1 & Hf1). unfold bind.
  destruct (m w) as [[a|e] w1]; cbn in *.
  - destruct (Hk a w1) as (es2 & Hl2 & Hf2). exists (es1 ++ es2).
    rewrite Hl2, Hf2, Hl1, Hf1, replay_app. now rewrite app_assoc.
  - now exists es1.
Qed.

Lemma tracks_try_except {A} (m : M world A) (h : exn -> M world A) :
  tracks os_exec m -> (forall e, tracks os_exec (h e)) -> tracks os_exec (try_except m h).
Proof.
  intros Hm Hh w. destruct (Hm w) as (es1 & Hl1 & Hf1). unfold try_except.
  destruct (m w) as [[a|e] w1]; cbn in *.
  - now exists es1.
  - destruct (Hh e w1) as (es2 & Hl2 & Hf2). exists (es1 ++ es2).
    rewrite Hl2, Hf2, Hl1, Hf1, replay_app. now rewrite app_assoc.
Qed.

Lemma tracks_emit e : is_sys e = false -> tracks os_exec (emit e).
Proof. intros He w. exists [e]. cbn. split; [done|]. now destruct e. Qed.

Lemma tracks_perform c : tracks os_exec (perform os_exec c).
Proof.
  intros w. exists [Sys c]. unfold perform.
  destruct (sys_step os_exec c (fs w)) as [r f'] eqn:E. cbn. now rewrite E.
Qed.

Lemma tracks_when c (m : M world unit) : tracks os_exec m -> tracks os_exec (when c m).
Proof. intros Hm. destruct c; [exact Hm | apply tracks_ret]. Qed.

Lemma tracks_fs_call c : tracks os_exec (fs_call os_exec c).
Proof.
  apply tracks_bind; [apply tracks_perform|].
  intros [| |]; first [apply tracks_ret | apply tracks_raise].
Qed.

Lemma tracks_subprocess_run cmd cwd : tracks os_exec (subprocess_run os_exec cmd cwd).
Proof.
  apply tracks_bind; [apply tracks_perform|].
  intros [| |[|]]; first [apply tracks_ret | apply tracks_raise].
Qed.

Lemma tracks_logger_info msg : tracks os_exec (logger_info msg).
Proof. now apply tracks_emit. Qed.

End Tracking.

Ltac tracks_tac :=
  repeat first
    [ apply tracks_ret | apply tracks_raise | apply tracks_logger_info
    | apply tracks_fs_call | apply tracks_subprocess_run
    | apply tracks_emit; reflexivity
    | apply tracks_when
    | apply tracks_bind; [|intros ?]
    | match goal with |- tracks _ (if ?c then _ else _) => destruct c end ].

Section Scaffolds.
Variable os_exec : list string -> option path -> filesystem -> proc_result * filesystem.

Lemma tracks_scaffold_playwright td language clean :
  tracks os_exec (scaffold_playwright os_exec td language clean).
Proof. unfold scaffold_playwright, delete_entire_dir. tracks_tac. Qed.

Lemma tracks_scaffold_cypress td language clean :
  tracks os_exec (scaffold_cypress os_exec td language clean).
Proof. unfold scaffold_cypress, delete_entire_dir. tracks_tac. Qed.

(** *** Single steps *)

Lemma fs_call_run c w :
  fs_call os_exec c w =
  (fs_outcome (fst (sys_step os_exec c (fs w))),
   World (snd (sys_step os_exec c (fs w))) (log w ++ [Sys c])).
Proof.
  unfold fs_call, bind, perform.
  destruct (sys_step os_exec c (fs w)) as [[| |] f']; reflexivity.
Qed.

Lemma subprocess_run_run cmd cwd w :
  subprocess_run os_exec cmd cwd w =
  (run_outcome (fst (os_exec cmd cwd (fs w))),
   World (snd (os_exec cmd cwd (fs w))) (log w ++ [Sys (Exec cmd cwd)])).
Proof.
  unfold subprocess_run, bind, perform. cbn.
  destruct (os_exec cmd cwd (fs w)) as [[|] f']; reflexivity.
Qed.

Lemma when_clean_run clean td f l :
  when clean (delete_entire_dir os_exec td) (World f l) =
  (Ok tt, World (if clean then remove_tree td f else f)
                (l ++ if clean then [Sys (Rmtree td)] else [])).
Proof.
  destruct clean; cbn [when].
  - unfold delete_entire_dir. now rewrite fs_call_run.
  - unfold ret. now rewrite app_nil_r.
Qed.

Lemma mkdir_run td f l :
  fs_call os_exec (Mkdir td) (World f l) =
  (fs_outcome (fst (make_dir td f)), World (snd (make_dir td f)) (l ++ [Sys (Mkdir td)])).
Proof. now rewrite fs_call_run. Qed.



Lemma info_run msg f l : logger_info msg (World f l) = (Ok tt, World f (l ++ [LogInfo msg])).
Proof. reflexivity. Qed.

End Scaffolds.

Section CypressRuns.
Variable os_exec : list string -> option path -> filesystem -> proc_result * filesystem.





(** C6: for the language [python], [scaffold_playwright] and
    [scaffold_cypress] do the same and nothing but this: the recursive
    delete when [clean] is true, then the creation of the directory, and
    they return (or raise what the creation raised).  No file is written
    and no command is run. *)
Theorem C6_python_only_prepares_directory (td : path) (clean : bool) (w : world) :
  let f0 := if clean then remove_tree td (fs w) else fs w in
  let prep := (if clean then [Sys (Rmtree td)] else []) ++ [Sys (Mkdir td)] in
  let outcome :=
    (fs_outcome (fst (make_dir td f0)), World (snd (make_dir td f0)) (log w ++ prep)) in
  scaffold_playwright os_exec td "python" clean w = outcome /\
  scaffold_cypress os_exec td "python" clean w = outcome /\
  forallb (fun e => match e with
                    | Sys (WriteFile _ _) | Sys (Exec _ _) => false
                    | _ => true
                    end) prep = true.
Proof.
  intros f0 prep outcome. destruct w as [f l].
  assert (Hrun : bind (when clean (delete_entire_dir os_exec td))
                   (fun _ => bind (fs_call os_exec (Mkdir td)) (fun _ => ret tt))
                   (World f l) = outcome).
  { unfold bind at 1. rewrite when_clean_run.
    unfold bind at 1. rewrite mkdir_run. cbn [fs log] in *.
    unfold outcome, prep, f0. cbn [fs log]. rewrite <- app_assoc.
    now destruct (fst (make_dir td (if clean then remove_tree td f else f))). }
  split; [exact Hrun|]. split; [exact Hrun|].
  unfold prep. now destruct clean.
Qed.


End CypressRuns.

(** *** The toolchain probes and the install steps *)

Section Probes.
Variable os_exec : list string -> option path -> filesystem -> proc_result * filesystem.
Variable utf8_decode : string -> option string.
Variable strip : string -> string.

Lemma invocation_failure_kind r e :
  invocation_failure r = Some e ->
  (exists o, e = OSError o) \/ (exists rc, e = CalledProcessError rc).
Proof.
  destruct r as [o|rc out]; cbn.
  - intros [= <-]. left. eauto.
  - destruct (rc =? 0); [discriminate|]. intros [= <-]. right. eauto.
Qed.

Lemma return_false_failure r e w :
  invocation_failure r = Some e -> return_false e w = (Ok (PBool false), w).
Proof. intros [[o ->]|[rc ->]]%invocation_failure_kind; reflexivity. Qed.

Lemma check_output_failure cmd w e :
  invocation_failure (fst (os_exec cmd None (fs w))) = Some e ->
  subprocess_check_output os_exec cmd w =
  (Raise e, World (snd (os_exec cmd None (fs w))) (log w ++ [Sys (Exec cmd None)])).
Proof.
  unfold subprocess_check_output, bind, perform. cbn.
  destruct (os_exec cmd None (fs w)) as [[o|rc out] f']; cbn.
  - now intros [= <-].
  - destruct (rc =? 0); [discriminate|]. now intros [= <-].
Qed.

Lemma run_check_failure cmd cwd w e :
  invocation_failure (fst (os_exec cmd cwd (fs w))) = Some e ->
  subprocess_run_check os_exec cmd cwd w =
  (Raise e, World (snd (os_exec cmd cwd (fs w))) (log w ++ [Sys (Exec cmd cwd)])).
Proof.
  unfold subprocess_run_check, bind, perform. cbn.
  destruct (os_exec cmd cwd (fs w)) as [[o|rc out] f']; cbn.
  - now intros [= <-].
  - destruct (rc =? 0); [discriminate|]. now intros [= <-].
Qed.

Lemma run_check_success cmd cwd w :
  invocation_failure (fst (os_exec cmd cwd (fs w))) = None ->
  subprocess_run_check os_exec cmd cwd w =
  (Ok tt, World (snd (os_exec cmd cwd (fs w))) (log w ++ [Sys (Exec cmd cwd)])).
Proof.
  unfold subprocess_run_check, bind, perform. cbn.
  destruct (os_exec cmd cwd (fs w)) as [[o|rc out] f']; cbn; [discriminate|].
  now destruct (rc =? 0).
Qed.

(** A version query whose process fails raises right after the call. *)
Lemma query_version_failure checking found cmd w e :
  invocation_failure (fst (os_exec cmd None (fs w))) = Some e ->
  query_version os_exec utf8_decode strip checking found cmd w =
  (Raise e, World (snd (os_exec cmd None (fs w)))
              (log w ++ [LogInfo checking; Sys (Exec cmd None)])).
Proof.
  intros He. destruct w as [f l]. unfold query_version.
  unfold bind at 1. rewrite info_run. unfold bind at 1.
  rewrite (check_output_failure cmd (World f (l ++ [LogInfo checking])) e He). cbn [fs log].
  now rewrite <- app_assoc.
Qed.

(** The three probes that answer [False], and their commands. *)
Lemma soft_probe_failure checking found cmd w e :
  invocation_failure (fst (os_exec cmd None (fs w))) = Some e ->
  try_except (query_version os_exec utf8_decode strip checking found cmd) return_false w =
  (Ok (PBool false),
   World (snd (os_exec cmd None (fs w))) (log w ++ [LogInfo checking; Sys (Exec cmd None)])).
Proof.
  intros He. unfold try_except.
  rewrite (query_version_failure checking found cmd w e He).
  apply (return_false_failure _ e _ He).
Qed.

(** The four probes are the shared body under their handlers. *)
Lemma check_for_node_eq :
  check_for_node os_exec utf8_decode strip =
  try_except
    (query_version os_exec utf8_decode strip
       "Checking that Node.js is installed." "found node version: " ["node"; "-v"])
    (fun e =>
       emit (LogError "Could not find Node.js installation. Please install it from https://nodejs.org : " e) ;;;
       raise (TyperExit 0)).
Proof. reflexivity. Qed.

Lemma check_for_npm_eq :
  check_for_npm os_exec utf8_decode strip =
  try_except
    (query_version os_exec utf8_decode strip
       "Checking that npm is installed." "found npm version: " ["npm"; "-v"])
    return_false.
Proof. reflexivity. Qed.

Lemma check_for_playwright_eq :
  check_for_playwright os_exec utf8_decode strip =
  try_except
    (query_version os_exec utf8_decode strip
       "Checking that Playwright is installed." "found playwright version: "
       ["playwright"; "--version"])
    return_false.
Proof. reflexivity. Qed.

Lemma check_for_cypress_eq :
  check_for_cypress os_exec utf8_decode strip =
  try_except
    (query_version os_exec utf8_decode strip
       "Checking that Cypress is installed." "found cypress version: "
       ["cypress"; "--version"])
    return_false.
Proof. reflexivity. Qed.

(** Whatever is raised inside the Node.js probe leaves it as the exit. *)
Lemma check_for_node_raises w e :
  fst (check_for_node os_exec utf8_decode strip w) = Raise e -> e = TyperExit 0.
Proof.
  rewrite check_for_node_eq. unfold try_except.
  destruct (query_version _ _ _ _ _ _ w) as [[v|e'] w']; cbn; [discriminate|].
  now intros [= <-].
Qed.

(** C8: when the version query of npm, Playwright or Cypress fails to be
    invoked (the tool cannot be launched, or exits with a non-zero code),
    the probe returns [False] and raises nothing; nothing is logged after
    the call.  The Node.js probe on the same failures logs the message
    that asks to install Node.js and raises [typer.Exit]; and whatever
    goes wrong inside it, the only exception it lets out is that exit. *)
Theorem C8_probe_failure_results (w : world) :
  let after cmd := snd (os_exec cmd None (fs w)) in
  let failed cmd e := invocation_failure (fst (os_exec cmd None (fs w))) = Some e in
  (forall e, failed ["npm"; "-v"] e ->
     check_for_npm os_exec utf8_decode strip w =
     (Ok (PBool false),
      World (after ["npm"; "-v"])
            (log w ++ [LogInfo "Checking that npm is installed.";
                       Sys (Exec ["npm"; "-v"] None)]))) /\
  (forall e, failed ["playwright"; "--version"] e ->
     check_for_playwright os_exec utf8_decode strip w =
     (Ok (PBool false),
      World (after ["playwright"; "--version"])
            (log w ++ [LogInfo "Checking that Playwright is installed.";
                       Sys (Exec ["playwright"; "--version"] None)]))) /\
  (forall e, failed ["cypress"; "--version"] e ->
     check_for_cypress os_exec utf8_decode strip w =
     (Ok (PBool false),
      World (after ["cypress"; "--version"])
            (log w ++ [LogInfo "Checking that Cypress is installed.";
                       Sys (Exec ["cypress"; "--version"] None)]))) /\
  (forall e, failed ["node"; "-v"] e ->
     check_for_node os_exec utf8_decode strip w =
     (Raise (TyperExit 0),
      World (after ["node"; "-v"])
            (log w ++ [LogInfo "Checking that Node.js is installed.";
                       Sys (Exec ["node"; "-v"] None);
                       LogError "Could not find Node.js installation. Please install it from https://nodejs.org : " e]))) /\
  (forall e, fst (check_for_node os_exec utf8_decode strip w) = Raise e -> e = TyperExit 0).
Proof.
  intros after failed. unfold failed, after.
  split; [|split; [|split; [|split]]].
  - intros e He. rewrite check_for_npm_eq. now apply soft_probe_failure with (e := e).
  - intros e He. rewrite check_for_playwright_eq.
    now apply soft_probe_failure with (e := e).
  - intros e He. rewrite check_for_cypress_eq.
    now apply soft_probe_failure with (e := e).
  - intros e He. rewrite check_for_node_eq. unfold try_except.
    rewrite (query_version_failure _ _ _ w e He). cbn.
    now rewrite <- app_assoc.
  - apply check_for_node_raises.
Qed.

(** The two install steps on a failed process: both answer [False]. *)
Lemma install_steps_failure td w :
  (forall e, invocation_failure
               (fst (os_exec ["playwright"; "install"; "chromium"] (Some td) (fs w))) = Some e ->
     fst (check_for_playwright_browsers os_exec td w) = Ok (PBool false)) /\
  (forall e, invocation_failure
               (fst (os_exec ["npx"; "--yes"; "cypress"; "install"] (Some td) (fs w))) = Some e ->
     fst (check_for_cypress_installation os_exec td w) = Ok (PBool false)).
Proof.
  destruct w as [f l].
  split; intros e He;
    [unfold check_for_playwright_browsers | unfold check_for_cypress_installation];
    unfold bind at 1; unfold try_except; unfold bind at 1; rewrite info_run;
    unfold bind at 1; rewrite (run_check_failure _ _ (World f (l ++ [LogInfo _])) e He);
    destruct (invocation_failure_kind _ _ He) as [[o ->]|[rc ->]]; reflexivity.
Qed.

(** The two install steps on a process that exits with 0. *)
Lemma install_steps_success td w :
  (invocation_failure
     (fst (os_exec ["playwright"; "install"; "chromium"] (Some td) (fs w))) = None ->
   fst (check_for_playwright_browsers os_exec td w) = Ok (PBool true)) /\
  (invocation_failure
     (fst (os_exec ["npx"; "--yes"; "cypress"; "install"] (Some td) (fs w))) = None ->
   fst (check_for_cypress_installation os_exec td w) = Ok PNone).
Proof.
  destruct w as [f l].
  split; intros He;
    [unfold check_for_playwright_browsers | unfold check_for_cypress_installation];
    unfold bind at 1; unfold try_except; unfold bind at 1; rewrite info_run;
    unfold bind at 1; rewrite (run_check_success _ _ (World f (l ++ [LogInfo _])) He); reflexivity.
Qed.

End Probes.

(** C9, at the input on which the code departs from it: every command
    succeeds.  [check_for_playwright_browsers] returns [True];
    [check_for_cypress_installation], which has no [return True] after
    its [try] statement, returns [None]. *)
Theorem C9_cypress_install_success_returns_None :
  check_for_playwright_browsers all_succeed ["tests"] (World tests_dir []) =
    (Ok (PBool true),
     World tests_dir [LogInfo "Checking that Playwright browsers are installed.";
                      Sys (Exec ["playwright"; "install"; "chromium"] (Some ["tests"]))]) /\
  check_for_cypress_installation all_succeed ["tests"] (World tests_dir []) =
    (Ok PNone,
     World tests_dir [LogInfo "Checking that Cypress is installed.";
                      Sys (Exec ["npx"; "--yes"; "cypress"; "install"] (Some ["tests"]))]).
Proof. split; reflexivity. Qed.



Lemma C8_witness :
  fst (check_for_npm nothing_installed Some id (World tests_dir [])) = Ok (PBool false) /\
  fst (check_for_node nothing_installed Some id (World tests_dir [])) = Raise (TyperExit 0).
Proof.
  destruct (C8_probe_failure_results nothing_installed Some id (World tests_dir []))
    as (Hnpm & _ & _ & Hnode & _).
  split.
  - rewrite (Hnpm (OSError FileNotFoundError)); reflexivity.
  - rewrite (Hnode (OSError FileNotFoundError)); reflexivity.
Defined.

End ScaffoldSpec.

(** ** More about [start] *)

Module StartMore.
Import Start StartSpec.

Lemma resolved_sections a cfg ag cf :
  cfg !! "agent" = Some ag -> cfg !! "config" = Some cf ->
  resolved a cfg = sections (merged_agent a ag) (merged_config a cf) cfg.
Proof. intros Ha Hc. unfold resolved. now rewrite (overrides_ok a cfg ag cf [] Ha Hc). Qed.

(** The overrides write the four [agent] keys and the three [config] keys
    and nothing else: every other key of the two sections and every other
    section of the file is as it was loaded. *)
Theorem overrides_leave_other_entries (a : args) (cfg : config) :
  present (cfg !! "agent") = true -> present (cfg !! "config") = true ->
  (forall sec, sec <> "agent" -> sec <> "config" -> resolved a cfg !! sec = cfg !! sec) /\
  (forall k, k <> "prompt" -> k <> "url" -> k <> "language" -> k <> "framework" ->
     entry (resolved a cfg) "agent" k = entry cfg "agent" k) /\
  (forall k, k <> "headless" -> k <> "log_level" -> k <> "clean" ->
     entry (resolved a cfg) "config" k = entry cfg "config" k).
Proof.
  intros [ag Ha]%present_true [cf Hc]%present_true.
  rewrite (resolved_sections a cfg ag cf Ha Hc).
  split; [|split].
  - intros sec H1 H2. unfold sections. now rewrite !lookup_insert_ne.
  - intros k H1 H2 H3 H4. rewrite entry_sections_agent. unfold entry. rewrite Ha. cbn.
    unfold merged_agent. rewrite !lookup_set_when, !lookup_set_some.
    rewrite !(bool_decide_eq_false_2 (_ = k)) by congruence.
    rewrite !andb_false_r. now destruct (url a), (prompt a).
  - intros k H1 H2 H3. rewrite entry_sections_config. unfold entry. rewrite Hc. cbn.
    unfold merged_config. rewrite !lookup_set_when.
    rewrite !(bool_decide_eq_false_2 (_ = k)) by congruence.
    now rewrite !andb_false_r.
Qed.

Lemma overrides_leave_other_entries_witness :
  entry (resolved clean_args (<["agent" := {[ "model" := PStr "gpt" ]}]> example_config))
        "agent" "model" = Some (PStr "gpt").
Proof.
  destruct (overrides_leave_other_entries clean_args
              (<["agent" := {[ "model" := PStr "gpt" ]}]> example_config))
    as (_ & H & _).
  - vm_compute. reflexivity.
  - vm_compute. reflexivity.
  - rewrite H by discriminate. vm_compute. reflexivity.
Defined.

Lemma set_when_idem c k v (d : gmap string pyval) :
  set_when c k v (set_when c k v d) = set_when c k v d.
Proof. unfold set_when. destruct c; [apply insert_insert_eq | done]. Qed.

Lemma merged_agent_idem a ag : merged_agent a (merged_agent a ag) = merged_agent a ag.
Proof.
  apply map_eq. intros k. unfold merged_agent.
  rewrite !lookup_set_when, !lookup_set_some.
  destruct (truthy (framework a)), (truthy (language a)), (url a), (prompt a); cbn;
    repeat case_bool_decide; rewrite ?lookup_insert_ne by done;
    try reflexivity; congruence.
Qed.

Lemma merged_config_idem a cf : merged_config a (merged_config a cf) = merged_config a cf.
Proof.
  apply map_eq. intros k. unfold merged_config.
  rewrite !lookup_set_when.
  destruct (clean a), (debug a), (headless a); cbn;
    repeat case_bool_decide; rewrite ?lookup_insert_ne by done;
    try reflexivity; congruence.
Qed.

(** Applying the same CLI arguments to the effective configuration changes
    nothing: the overrides are idempotent. *)
Theorem overrides_idempotent (a : args) (cfg : config) :
  present (cfg !! "agent") = true -> present (cfg !! "config") = true ->
  overrides a (resolved a cfg) [] = (Ok (resolved a cfg), []).
Proof.
  intros [ag Ha]%present_true [cf Hc]%present_true.
  rewrite (resolved_sections a cfg ag cf Ha Hc).
  rewrite overrides_sections, merged_agent_idem, merged_config_idem. reflexivity.
Qed.

Lemma overrides_idempotent_witness :
  overrides clean_args (resolved clean_args no_prompt_config) []
  = (Ok (resolved clean_args no_prompt_config), []).
Proof. apply overrides_idempotent; vm_compute; reflexivity. Defined.


(** An explicit CLI value wins.  A [--prompt] or [--url] that was passed,
    and a [--language] or [--framework] that is not the empty string,
    replace what the file says; a prompt or url that was not passed leaves
    the file's entry. *)
Theorem cli_values_take_precedence (a : args) (cfg : config) :
  present (cfg !! "agent") = true -> present (cfg !! "config") = true ->
  (forall p, prompt a = Some p ->
     entry (resolved a cfg) "agent" "prompt" = Some (PStr p)) /\
  (forall u, url a = Some u ->
     entry (resolved a cfg) "agent" "url" = Some (PStr u)) /\
  (language a <> "" ->
     entry (resolved a cfg) "agent" "language" = Some (PStr (language a))) /\
  (framework a <> "" ->
     entry (resolved a cfg) "agent" "framework" = Some (PStr (framework a))) /\
  (language a = "" ->
     entry (resolved a cfg) "agent" "language" = entry cfg "agent" "language") /\
  (framework a = "" ->
     entry (resolved a cfg) "agent" "framework" = entry cfg "agent" "framework") /\
  (prompt a = None ->
     entry (resolved a cfg) "agent" "prompt" = entry cfg "agent" "prompt") /\
  (url a = None ->
     entry (resolved a cfg) "agent" "url" = entry cfg "agent" "url").
Proof.
  intros Ha Hc.
  destruct (overrides_entries a cfg [] Ha Hc)
    as (_ & _ & _ & Ep & Eu & El & Ef & _).
  assert (Ht : forall s, s <> "" -> truthy s = true).
  { intros s Hs. unfold truthy. apply negb_true_iff, String.eqb_neq, Hs. }
  repeat split.
  - intros p Hp. now rewrite Ep, Hp.
  - intros u Hu. now rewrite Eu, Hu.
  - intros Hl. now rewrite El, (Ht _ Hl).
  - intros Hf. now rewrite Ef, (Ht _ Hf).
  - intros Hl. now rewrite El, Hl.
  - intros Hf. now rewrite Ef, Hf.
  - intros Hp. now rewrite Ep, Hp.
  - intros Hu. now rewrite Eu, Hu.
Qed.

Lemma cli_values_take_precedence_witness :
  entry (resolved no_language_args example_config) "agent" "language"
  = Some (PStr "typescript").
Proof.
  destruct (cli_values_take_precedence no_language_args example_config)
    as (_ & _ & _ & _ & H & _).
  - vm_compute. reflexivity.
  - vm_compute. reflexivity.
  - rewrite H; reflexivity.
Defined.

Lemma getitem2_missing (cfg : config) sec key cf (t : trace) :
  cfg !! sec = Some cf -> cf !! key = None ->
  getitem2 cfg sec key t = (Raise (KeyError key), t).
Proof.
  intros Hs Hk. unfold getitem2, getitem, bind. rewrite Hs. cbn. now rewrite Hk.
Qed.

Lemma entry_None_inv (cfg : config) sec key :
  present (cfg !! sec) = true -> entry cfg sec key = None ->
  exists cf, cfg !! sec = Some cf /\ cf !! key = None.
Proof.
  intros [cf Hs]%present_true He. exists cf. split; [done|].
  unfold entry in He. now rewrite Hs in He.
Qed.

Section Runs.
Variable TEST_DIR : string.

(** With [--prompt] and [--url] both passed, validation cannot fail: on
    a loaded configuration the run returns, and its last event is the call
    of the agent with exactly the two CLI values, whatever the file says. *)
Theorem cli_prompt_and_url_reach_agent (a : args) (cfg : config) (p u : string) :
  loaded cfg = true -> prompt a = Some p -> url a = Some u ->
  start TEST_DIR a cfg [] =
  (Ok tt, action_events TEST_DIR (resolved a cfg) ++ [Agent (PStr p) (PStr u)]).
Proof.
  intros Hl Hp Hu. rewrite (start_run TEST_DIR a cfg Hl). cbv zeta.
  apply loaded_sections in Hl as (Ha & Hc & _).
  destruct (overrides_entries a cfg [] Ha Hc) as (_ & _ & _ & Ep & Eu & _).
  rewrite Hp in Ep. rewrite Hu in Eu.
  now rewrite (field_entry _ _ _ _ Ep), (field_entry _ _ _ _ Eu).
Qed.

(** A file without [config.log_level], run without [--debug]: [start]
    raises [KeyError] for the key before anything has happened. Nothing is
    deleted, nothing is printed, the agent is not called. *)
Theorem missing_log_level_raises_first (a : args) (cfg : config) :
  present (cfg !! "agent") = true -> present (cfg !! "config") = true ->
  entry cfg "config" "log_level" = None -> debug a = false ->
  start TEST_DIR a cfg [] = (Raise (KeyError "log_level"), []).
Proof.
  intros Ha Hc Hn Hd.
  destruct (overrides_entries a cfg [] Ha Hc)
    as (Ho & _ & Hc' & _ & _ & _ & _ & _ & El & _).
  rewrite Hd, Hn in El.
  destruct (entry_None_inv _ _ _ Hc' El) as (cf & Hs & Hk).
  unfold start. rewrite (bind_ok _ _ _ _ _ Ho).
  apply bind_raise. unfold actions. apply bind_raise.
  now apply getitem2_missing with (cf := cf).
Qed.

(** A file without [config.clean], run without [--clean]: the log level
    and the headless setting have been applied when [start] raises
    [KeyError] for the key; there is no deletion, no validation and no
    agent call. *)
Theorem missing_clean_raises_after_two_actions (a : args) (cfg : config) :
  present (cfg !! "agent") = true -> present (cfg !! "config") = true ->
  present (entry (resolved a cfg) "config" "log_level") = true ->
  present (entry (resolved a cfg) "config" "headless") = true ->
  entry cfg "config" "clean" = None -> clean a = false ->
  start TEST_DIR a cfg [] =
  (Raise (KeyError "clean"),
   (if says "debug" (field (resolved a cfg) "config" "log_level")
    then [LoggerSetLevel "DEBUG"; EnvironSet "LOG_LEVEL" "DEBUG"] else [])
   ++ (if says "true" (field (resolved a cfg) "config" "headless")
       then [EnvironSet "HEADLESS" "true"] else [])).
Proof.
  intros Ha Hc Hl Hh Hn Hcl.
  destruct (overrides_entries a cfg [] Ha Hc)
    as (Ho & _ & Hc' & _ & _ & _ & _ & _ & _ & Ecl).
  rewrite Hcl, Hn in Ecl.
  destruct (entry_None_inv _ _ _ Hc' Ecl) as (cf & Hs & Hk).
  destruct (present_true _ Hl) as [lvl Elvl].
  destruct (present_true _ Hh) as [hl Ehl].
  unfold start. rewrite (bind_ok _ _ _ _ _ Ho).
  apply bind_raise. unfold actions.
  rewrite (field_entry _ _ _ _ Elvl), (field_entry _ _ _ _ Ehl).
  unfold bind, when, emit, ret, says.
  rewrite (getitem2_entry _ _ _ _ _ Elvl).
  destruct (String.eqb (lower (str lvl)) "debug"); cbn [fst snd];
    rewrite (getitem2_entry _ _ _ _ _ Ehl);
    destruct (String.eqb (lower (str hl)) "true"); cbn [fst snd];
    rewrite (getitem2_missing _ _ _ cf _ Hs Hk); reflexivity.
Qed.

(** Nothing is deleted unless the [clean] setting reads as true: when the
    effective [config.clean] does not, no run issues a shell command. *)
Theorem no_clean_no_deletion (a : args) (cfg : config) :
  loaded cfg = true ->
  says "true" (field (resolved a cfg) "config" "clean") = false ->
  forallb (fun e => negb (is_popen e)) (snd (start TEST_DIR a cfg [])) = true.
Proof.
  intros Hl Hs. rewrite (start_run TEST_DIR a cfg Hl). cbv zeta.
  unfold action_events. rewrite Hs. clear Hs.
  destruct (field (resolved a cfg) "agent" "url"),
    (field (resolved a cfg) "agent" "prompt"),
    (says "debug" (field (resolved a cfg) "config" "log_level")),
    (says "true" (field (resolved a cfg) "config" "headless")); reflexivity.
Qed.

(** A flag that is passed takes effect in every run on a loaded
    configuration, whatever the file says: [--debug] sets the logger and
    [LOG_LEVEL] to [DEBUG], [--headless] sets [HEADLESS] to [true],
    [--clean] issues the deletion. *)
Theorem passed_flags_take_effect (a : args) (cfg : config) :
  loaded cfg = true ->
  (debug a = true ->
     In (LoggerSetLevel "DEBUG") (snd (start TEST_DIR a cfg [])) /\
     In (EnvironSet "LOG_LEVEL" "DEBUG") (snd (start TEST_DIR a cfg []))) /\
  (headless a = true ->
     In (EnvironSet "HEADLESS" "true") (snd (start TEST_DIR a cfg []))) /\
  (clean a = true ->
     In (Popen ("rm -rf " +:+ TEST_DIR +:+ "/*")) (snd (start TEST_DIR a cfg []))).
Proof.
  intros Hl.
  assert (Hin : forall e, In e (action_events TEST_DIR (resolved a cfg)) ->
                          In e (snd (start TEST_DIR a cfg []))).
  { intros e He. rewrite (start_run TEST_DIR a cfg Hl). cbv zeta.
    destruct (field (resolved a cfg) "agent" "url"),
      (field (resolved a cfg) "agent" "prompt"); cbn [snd];
      apply in_or_app; now left. }
  apply loaded_sections in Hl as (Ha & Hc & _).
  destruct (overrides_entries a cfg [] Ha Hc)
    as (_ & _ & _ & _ & _ & _ & _ & Eh & El & Ecl).
  split; [|split]; intros Hf; rewrite Hf in *; repeat split; apply Hin;
    unfold action_events;
    rewrite ?(field_entry _ _ _ _ El), ?(field_entry _ _ _ _ Eh),
      ?(field_entry _ _ _ _ Ecl);
    change (says "debug" (PStr "DEBUG")) with true;
    change (says "true" (PBool true)) with true;
    rewrite ?in_app_iff; cbn; tauto.
Qed.

End Runs.

Lemma cli_prompt_and_url_reach_agent_witness :
  start "tests" full_args no_prompt_config [] =
  (Ok tt,
   [LoggerSetLevel "DEBUG"; EnvironSet "LOG_LEVEL" "DEBUG"; EnvironSet "HEADLESS" "true";
    LoggerInfo "Deleting files in the tests directory"; Popen "rm -rf tests/*";
    Agent (PStr "check the cart") (PStr "http://shop.example")]).
Proof.
  rewrite (cli_prompt_and_url_reach_agent "tests" full_args no_prompt_config
             "check the cart" "http://shop.example").
  - vm_compute. reflexivity.
  - vm_compute. reflexivity.
  - reflexivity.
  - reflexivity.
Defined.

Lemma missing_log_level_raises_first_witness :
  start "tests" default_args no_log_level_config [] = (Raise (KeyError "log_level"), []).
Proof.
  apply missing_log_level_raises_first; vm_compute; reflexivity.
Defined.

Lemma missing_clean_raises_after_two_actions_witness :
  start "tests" default_args no_clean_config [] =
  (Raise (KeyError "clean"),
   [LoggerSetLevel "DEBUG"; EnvironSet "LOG_LEVEL" "DEBUG"; EnvironSet "HEADLESS" "true"]).
Proof.
  rewrite (missing_clean_raises_after_two_actions "tests" default_args no_clean_config).
  - vm_compute. reflexivity.
  - vm_compute. reflexivity.
  - vm_compute. reflexivity.
  - vm_compute. reflexivity.
  - vm_compute. reflexivity.
  - vm_compute. reflexivity.
  - reflexivity.
Defined.

Lemma no_clean_no_deletion_witness :
  forallb (fun e => negb (is_popen e)) (snd (start "tests" default_args clean_off_config []))
  = true.
Proof. apply no_clean_no_deletion; vm_compute; reflexivity. Defined.

Lemma passed_flags_take_effect_witness :
  In (Popen "rm -rf tests/*") (snd (start "tests" full_args clean_off_config [])).
Proof.
  destruct (passed_flags_take_effect "tests" full_args clean_off_config) as (_ & _ & H).
  - vm_compute. reflexivity.
  - apply H. reflexivity.
Defined.

End StartMore.

(** ** More about the scaffolder *)

Module ScaffoldMore.
Import Scaffold ScaffoldSpec.

(** *** What the scaffolders leave alone *)

Lemma remove_tree_outside f (td q : path) :
  ~ td `prefix_of` q -> remove_tree td f !! q = f !! q.
Proof.
  intros Hq. destruct (f !! td) as [[c|]|] eqn:E.
  - unfold remove_tree. now rewrite E.
  - rewrite (lookup_remove_tree_dir f td q E).
    now destruct (decide (td `prefix_of` q)).
  - now rewrite (remove_tree_absent f td E).
Qed.

Lemma make_dir_other f (td q : path) : q <> td -> snd (make_dir td f) !! q = f !! q.
Proof.
  intros Hq. unfold make_dir.
  destruct (f !! td) as [[c|]|]; [done | done |].
  destruct (f !! parent td) as [[c|]|]; cbn; [done | | done].
  now rewrite lookup_insert_ne.
Qed.

Lemma write_file_other f (p q : path) c : q <> p -> snd (write_file p c f) !! q = f !! q.
Proof.
  intros Hq. unfold write_file.
  assert (H : snd (match f !! parent p with
                   | Some Dir => (Done, <[p := File c]> f)
                   | Some (File _) => (Failed NotADirectoryError, f)
                   | None => (Failed FileNotFoundError, f)
                   end) !! q = f !! q).
  { destruct (f !! parent p) as [[c'|]|]; cbn; [done | | done].
    now rewrite lookup_insert_ne. }
  destruct (f !! p) as [[c'|]|]; [exact H | done | exact H].
Qed.

Section Frame.
Variable os_exec : list string -> option path -> filesystem -> proc_result * filesystem.
Variable q : path.
Hypothesis os_leaves : forall cmd cwd f, snd (os_exec cmd cwd f) !! q = f !! q.

Lemma leaves_ret {A} (a : A) : leaves q (ret a).
Proof. now intros w. Qed.

Lemma leaves_raise {A} e : leaves q (@raise world A e).
Proof. now intros w. Qed.

Lemma leaves_bind {A B} (m : M world A) (k : A -> M world B) :
  leaves q m -> (forall a, leaves q (k a)) -> leaves q (bind m k).
Proof.
  intros Hm Hk w. specialize (Hm w). unfold bind.
  destruct (m w) as [[a|e] w1]; cbn in *; [|exact Hm].
  now rewrite (Hk a w1).
Qed.

Lemma leaves_when c (m : M world unit) : leaves q m -> leaves q (when c m).
Proof. intros Hm. destruct c; [exact Hm | apply leaves_ret]. Qed.

Lemma leaves_emit e : leaves q (emit e).
Proof. now intros w. Qed.

Lemma leaves_fs_call c :
  (forall f, snd (sys_step os_exec c f) !! q = f !! q) -> leaves q (fs_call os_exec c).
Proof. intros Hc w. rewrite fs_call_run. cbn. apply Hc. Qed.

Lemma leaves_rmtree td : ~ td `prefix_of` q -> leaves q (fs_call os_exec (Rmtree td)).
Proof. intros Hq. apply leaves_fs_call. intros f. cbn. now apply remove_tree_outside. Qed.

Lemma leaves_mkdir td : q <> td -> leaves q (fs_call os_exec (Mkdir td)).
Proof. intros Hq. apply leaves_fs_call. intros f. cbn. now apply make_dir_other. Qed.

Lemma leaves_write p c : q <> p -> leaves q (fs_call os_exec (WriteFile p c)).
Proof. intros Hq. apply leaves_fs_call. intros f. cbn. now apply write_file_other. Qed.

Lemma leaves_subprocess_run cmd cwd : leaves q (subprocess_run os_exec cmd cwd).
Proof. intros w. rewrite subprocess_run_run. cbn. apply os_leaves. Qed.

Lemma not_prefix_ne (td : path) : ~ td `prefix_of` q -> q <> td.
Proof. intros Hq ->. now apply Hq. Qed.

Lemma not_prefix_join_ne (td : path) n : ~ td `prefix_of` q -> q <> td // n.
Proof. intros Hq ->. apply Hq, prefix_join. Qed.

(** Neither scaffolder touches anything outside the test directory: a path
    that is not the directory nor below it, and that the commands leave
    alone, holds after the run what it held before, whatever the language,
    the [clean] flag and the outcome. *)
Theorem scaffolders_stay_inside_test_dir
    (td : path) (language : string) (clean : bool) (w : world) :
  ~ td `prefix_of` q ->
  fs (snd (scaffold_playwright os_exec td language clean w)) !! q = fs w !! q /\
  fs (snd (scaffold_cypress os_exec td language clean w)) !! q = fs w !! q.
Proof.
  intros Hq.
  pose proof (not_prefix_ne td Hq) as Hne.
  pose proof (not_prefix_join_ne td) as Hj.
  assert (Hpre : leaves q (when clean (delete_entire_dir os_exec td))).
  { apply leaves_when. now apply leaves_rmtree. }
  split.
  - revert w. fold (leaves q (scaffold_playwright os_exec td language clean)).
    unfold scaffold_playwright.
    apply leaves_bind; [exact Hpre | intros _].
    apply leaves_bind; [now apply leaves_mkdir | intros _].
    destruct (String.eqb language "python"); [apply leaves_ret|].
    repeat (apply leaves_bind; [first [apply leaves_emit | apply leaves_subprocess_run]
                               | intros _]).
    apply leaves_subprocess_run.
  - revert w. fold (leaves q (scaffold_cypress os_exec td language clean)).
    unfold scaffold_cypress.
    apply leaves_bind; [exact Hpre | intros _].
    apply leaves_bind; [now apply leaves_mkdir | intros _].
    destruct (String.eqb language "python"); [apply leaves_ret|].
    repeat first
      [ apply leaves_subprocess_run
      | apply leaves_emit
      | apply leaves_write, Hj, Hq
      | apply leaves_when
      | apply leaves_bind; [|intros _] ].
Qed.

(** Without [clean], what is already in the test directory stays: a path
    other than the directory itself and the five file names
    [scaffold_cypress] may write, left alone by the commands, holds after
    the run what it held before; for [scaffold_playwright] every path other
    than the directory does. *)
Theorem scaffold_without_clean_keeps_contents
    (td : path) (language : string) (w : world) :
  q <> td ->
  fs (snd (scaffold_playwright os_exec td language false w)) !! q = fs w !! q /\
  ((forall n, In n cypress_names -> q <> td // n) ->
   fs (snd (scaffold_cypress os_exec td language false w)) !! q = fs w !! q).
Proof.
  intros Hne. split.
  - revert w. fold (leaves q (scaffold_playwright os_exec td language false)).
    unfold scaffold_playwright.
    apply leaves_bind; [apply leaves_ret | intros _].
    apply leaves_bind; [now apply leaves_mkdir | intros _].
    destruct (String.eqb language "python"); [apply leaves_ret|].
    repeat (apply leaves_bind; [first [apply leaves_emit | apply leaves_subprocess_run]
                               | intros _]).
    apply leaves_subprocess_run.
  - intros Hn. revert w. fold (leaves q (scaffold_cypress os_exec td language false)).
    unfold scaffold_cypress.
    apply leaves_bind; [apply leaves_ret | intros _].
    apply leaves_bind; [now apply leaves_mkdir | intros _].
    destruct (String.eqb language "python"); [apply leaves_ret|].
    repeat first
      [ apply leaves_subprocess_run
      | apply leaves_emit
      | apply leaves_write, Hn; cbn; tauto
      | apply leaves_when
      | apply leaves_bind; [|intros _] ].
Qed.

End Frame.

Lemma scaffolders_stay_inside_test_dir_witness :
  fs (snd (scaffold_cypress all_succeed ["tests"] "typescript" true (World tests_dir [])))
    !! ["notes.txt"] = None.
Proof.
  destruct (scaffolders_stay_inside_test_dir all_succeed ["notes.txt"]
              (fun _ _ _ => eq_refl) ["tests"] "typescript" true (World tests_dir []))
    as [_ H].
  - intros [k Hk]. discriminate Hk.
  - rewrite H. reflexivity.
Defined.

Lemma scaffold_without_clean_keeps_contents_witness :
  fs (snd (scaffold_cypress all_succeed ["tests"] "typescript" false (World tests_dir [])))
    !! ["tests"; "old.spec.ts"] = Some (File "stale").
Proof.
  destruct (scaffold_without_clean_keeps_contents all_succeed ["tests"; "old.spec.ts"]
              (fun _ _ _ => eq_refl) ["tests"] "typescript" (World tests_dir []))
    as [_ H].
  - discriminate.
  - rewrite H; [reflexivity|].
    intros n Hn. cbn in Hn. unfold join.
    destruct Hn as [<-|[<-|[<-|[<-|[<-|[]]]]]]; discriminate.
Defined.

(** *** Whole runs *)

Section Runs.
Variable os_exec : list string -> option path -> filesystem -> proc_result * filesystem.

Lemma eqb_false_of_ne (s t : string) : s <> t -> String.eqb s t = false.
Proof. apply String.eqb_neq. Qed.

Lemma prepare_run (td : path) (clean : bool) (fs0 : filesystem) (k : M world unit) :
  bind (when clean (delete_entire_dir os_exec td))
       (fun _ => bind (fs_call os_exec (Mkdir td)) (fun _ => k)) (World fs0 [])
  = let f0 := if clean then remove_tree td fs0 else fs0 in
    let prep := (if clean then [Sys (Rmtree td)] else []) ++ [Sys (Mkdir td)] in
    match fst (make_dir td f0) with
    | Failed e => (Raise (OSError e), World (snd (make_dir td f0)) prep)
    | _ => k (World (snd (make_dir td f0)) prep)
    end.
Proof.
  unfold bind at 1. rewrite when_clean_run. unfold bind at 1. rewrite mkdir_run.
  cbn [app]. cbv zeta.
  now destruct (fst (make_dir td (if clean then remove_tree td fs0 else fs0))).
Qed.

(** When the test directory cannot be created, both scaffolders raise the
    [OSError] of the [mkdir] right after the delete attempt: the file
    system is untouched, no file is written and no command is run.  This
    is what happens when the parent directory is missing, and when the
    path is a regular file, which [clean] does not remove. *)
Theorem scaffold_stops_when_mkdir_fails
    (td : path) (language : string) (clean : bool) (fs0 : filesystem) (e : oserror) :
  fs0 !! td <> Some Dir -> fst (make_dir td fs0) = Failed e ->
  let stopped :=
    (Raise (OSError e),
     World fs0 ((if clean then [Sys (Rmtree td)] else []) ++ [Sys (Mkdir td)])) in
  scaffold_playwright os_exec td language clean (World fs0 []) = stopped /\
  scaffold_cypress os_exec td language clean (World fs0 []) = stopped.
Proof.
  intros Hnd Hf stopped.
  assert (Hrm : (if clean then remove_tree td fs0 else fs0) = fs0).
  { destruct clean; [|done]. unfold remove_tree.
    destruct (fs0 !! td) as [[c|]|]; congruence. }
  assert (Hsnd : snd (make_dir td fs0) = fs0).
  { revert Hf. unfold make_dir.
    destruct (fs0 !! td) as [[c|]|]; [done | done |].
    now destruct (fs0 !! parent td) as [[c|]|]. }
  split; [unfold scaffold_playwright | unfold scaffold_cypress];
    rewrite prepare_run; cbv zeta; rewrite Hrm, Hf, Hsnd; reflexivity.
Qed.

Lemma mkdir_prepared (td : path) (clean : bool) (fs0 : filesystem) :
  scaffoldable fs0 td = true ->
  make_dir td (if clean then remove_tree td fs0 else fs0)
  = (Done, <[td := Dir]> (if clean then remove_tree td fs0 else fs0)).
Proof.
  intros Hs. destruct clean.
  - now destruct (clean_then_mkdir fs0 td Hs).
  - apply scaffoldable_unfold in Hs as (_ & _ & Hpar & Hcase). now apply make_dir_ok.
Qed.

Lemma emit_run e f l : emit e (World f l) = (Ok tt, World f (l ++ [e])).
Proof. reflexivity. Qed.

Lemma scaffold_playwright_unfold td language clean :
  scaffold_playwright os_exec td language clean =
  (when clean (delete_entire_dir os_exec td) ;;;
   fs_call os_exec (Mkdir td) ;;;
   if String.eqb language "python" then ret tt else
   logger_info "Running the playwright install command." ;;;
   emit (Stdout (playwright_init language)) ;;;
   subprocess_run os_exec (playwright_init language) (Some td) ;;;
   logger_info "Adding dev dependencies." ;;;
   subprocess_run os_exec ["npm"; "install"; "uuid"; "--save-dev"] (Some td)).
Proof. reflexivity. Qed.

(** [scaffold_playwright] for any language but python, in a file system
    where the directory can be prepared: Python writes no file itself; it
    prints and runs the [npm init playwright] command, with [Typescript]
    for typescript and [js] for every other language.  If that command
    cannot be launched, [OSError] is raised and the second command is not
    run.  Its exit code is not looked at: whatever it is, the [uuid]
    install runs next, and the function returns unless that launch
    fails. *)
Theorem scaffold_playwright_run
    (td : path) (language : string) (clean : bool) (fs0 : filesystem) :
  scaffoldable fs0 td = true -> language <> "python" ->
  let prep := (if clean then [Sys (Rmtree td)] else []) ++ [Sys (Mkdir td)] in
  let f1 := <[td := Dir]> (if clean then remove_tree td fs0 else fs0) in
  let init := playwright_init language in
  let uuid := ["npm"; "install"; "uuid"; "--save-dev"] in
  let r1 := os_exec init (Some td) f1 in
  let r2 := os_exec uuid (Some td) (snd r1) in
  let started :=
    prep ++ [LogInfo "Running the playwright install command.";
             Stdout init; Sys (Exec init (Some td))] in
  scaffold_playwright os_exec td language clean (World fs0 []) =
  match fst r1 with
  | LaunchFailed e => (Raise (OSError e), World (snd r1) started)
  | Exited _ _ =>
      (run_outcome (fst r2),
       World (snd r2)
         (started ++ [LogInfo "Adding dev dependencies."; Sys (Exec uuid (Some td))]))
  end.
Proof.
  intros Hs Hl prep f1 init uuid r1 r2 started.
  rewrite scaffold_playwright_unfold, prepare_run. cbv zeta.
  rewrite (mkdir_prepared td clean fs0 Hs). cbn [fst snd].
  rewrite (eqb_false_of_ne _ _ Hl).
  fold f1. fold prep. fold init. fold uuid.
  unfold bind. rewrite info_run. cbv beta iota.
  rewrite emit_run. cbv beta iota.
  rewrite subprocess_run_run. cbn [fs log fst snd].
  fold r1.
  destruct (fst r1) as [e|rc out] eqn:E1; cbn [run_outcome]; cbv beta iota.
  - unfold started. now rewrite <- !app_assoc.
  - rewrite info_run. cbv beta iota. rewrite subprocess_run_run. cbn [fs log fst snd].
    fold r2. unfold started. now rewrite <- !app_assoc.
Qed.


End Runs.

Lemma scaffold_stops_when_mkdir_fails_witness :
  scaffold_cypress all_succeed ["tests"] "typescript" true (World tests_is_file []) =
  (Raise (OSError FileExistsError),
   World tests_is_file [Sys (Rmtree ["tests"]); Sys (Mkdir ["tests"])]).
Proof.
  destruct (scaffold_stops_when_mkdir_fails all_succeed ["tests"] "typescript" true
              tests_is_file FileExistsError) as [_ H].
  - vm_compute. discriminate.
  - vm_compute. reflexivity.
  - exact H.
Defined.

Lemma scaffold_playwright_run_witness :
  fst (scaffold_playwright (all_exit 1 "") ["tests"] "ruby" true (World tests_dir []))
  = Ok tt.
Proof.
  rewrite (scaffold_playwright_run (all_exit 1 "") ["tests"] "ruby" true tests_dir).
  - reflexivity.
  - vm_compute. reflexivity.
  - discriminate.
Defined.


(** *** The probes on a process that ran *)

Section Probes.
Variable os_exec : list string -> option path -> filesystem -> proc_result * filesystem.
Variable utf8_decode : string -> option string.
Variable strip : string -> string.

Lemma check_output_success cmd w out f' :
  os_exec cmd None (fs w) = (Exited 0 out, f') ->
  subprocess_check_output os_exec cmd w =
  (Ok out, World f' (log w ++ [Sys (Exec cmd None)])).
Proof.
  intros H. unfold subprocess_check_output, bind, perform. cbn. now rewrite H.
Qed.

Lemma query_version_success checking found cmd w out f' s :
  os_exec cmd None (fs w) = (Exited 0 out, f') -> utf8_decode out = Some s ->
  query_version os_exec utf8_decode strip checking found cmd w =
  (Ok (PStr (strip s)),
   World f' (log w ++ [LogInfo checking; Sys (Exec cmd None)]
             ++ if truthy out then [LogInfo (found +:+ strip s)] else [])).
Proof.
  intros Ho Hd. destruct w as [f l]. unfold query_version.
  unfold bind at 1. rewrite info_run. unfold bind at 1.
  rewrite (check_output_success cmd (World f (l ++ [LogInfo checking])) out f' Ho).
  cbn [fs log]. unfold bind, when, decode, ret. rewrite Hd.
  destruct (truthy out); cbn; rewrite <- !app_assoc; cbn; rewrite ?app_nil_r; reflexivity.
Qed.

Lemma query_version_undecodable checking found cmd w out f' :
  os_exec cmd None (fs w) = (Exited 0 out, f') -> utf8_decode out = None ->
  query_version os_exec utf8_decode strip checking found cmd w =
  (Raise UnicodeDecodeError,
   World f' (log w ++ [LogInfo checking; Sys (Exec cmd None)])).
Proof.
  intros Ho Hd. destruct w as [f l]. unfold query_version.
  unfold bind at 1. rewrite info_run. unfold bind at 1.
  rewrite (check_output_success cmd (World f (l ++ [LogInfo checking])) out f' Ho).
  cbn [fs log]. unfold bind, when, decode, ret, raise. rewrite Hd.
  destruct (truthy out); cbn; rewrite <- !app_assoc; reflexivity.
Qed.

(** A probe whose command exits with 0 returns the decoded output,
    stripped, as a string (never [True]), and logs the version it found
    only when the output is not empty.  This holds for all four probes,
    the Node.js one included. *)
Theorem probes_return_stripped_version (w : world) (out s : string) (f' : filesystem) :
  utf8_decode out = Some s ->
  let run cmd := os_exec cmd None (fs w) = (Exited 0 out, f') in
  let answer checking found cmd :=
    (Ok (PStr (strip s)),
     World f' (log w ++ [LogInfo checking; Sys (Exec cmd None)]
               ++ if truthy out then [LogInfo (found +:+ strip s)] else [])) in
  (run ["node"; "-v"] ->
   check_for_node os_exec utf8_decode strip w =
   answer "Checking that Node.js is installed." "found node version: " ["node"; "-v"]) /\
  (run ["npm"; "-v"] ->
   check_for_npm os_exec utf8_decode strip w =
   answer "Checking that npm is installed." "found npm version: " ["npm"; "-v"]) /\
  (run ["playwright"; "--version"] ->
   check_for_playwright os_exec utf8_decode strip w =
   answer "Checking that Playwright is installed." "found playwright version: "
          ["playwright"; "--version"]) /\
  (run ["cypress"; "--version"] ->
   check_for_cypress os_exec utf8_decode strip w =
   answer "Checking that Cypress is installed." "found cypress version: "
          ["cypress"; "--version"]).
Proof.
  intros Hd run answer. unfold run, answer.
  repeat split; intros Ho.
  - rewrite check_for_node_eq. unfold try_except.
    now rewrite (query_version_success _ _ _ w out f' s Ho Hd).
  - rewrite check_for_npm_eq. unfold try_except.
    now rewrite (query_version_success _ _ _ w out f' s Ho Hd).
  - rewrite check_for_playwright_eq. unfold try_except.
    now rewrite (query_version_success _ _ _ w out f' s Ho Hd).
  - rewrite check_for_cypress_eq. unfold try_except.
    now rewrite (query_version_success _ _ _ w out f' s Ho Hd).
Qed.

(** A probe whose command exits with 0 but prints bytes that are not
    valid UTF-8: the npm, Playwright and Cypress probes let the
    [UnicodeDecodeError] out, since their handlers catch only
    [CalledProcessError] and [OSError]; the Node.js probe, which catches
    every exception, logs its message and raises [typer.Exit]. *)
Theorem probes_on_undecodable_output (w : world) (out : string) (f' : filesystem) :
  utf8_decode out = None ->
  let run cmd := os_exec cmd None (fs w) = (Exited 0 out, f') in
  let raised checking cmd :=
    (@Raise pyval UnicodeDecodeError,
     World f' (log w ++ [LogInfo checking; Sys (Exec cmd None)])) in
  (run ["npm"; "-v"] ->
   check_for_npm os_exec utf8_decode strip w =
   raised "Checking that npm is installed." ["npm"; "-v"]) /\
  (run ["playwright"; "--version"] ->
   check_for_playwright os_exec utf8_decode strip w =
   raised "Checking that Playwright is installed." ["playwright"; "--version"]) /\
  (run ["cypress"; "--version"] ->
   check_for_cypress os_exec utf8_decode strip w =
   raised "Checking that Cypress is installed." ["cypress"; "--version"]) /\
  (run ["node"; "-v"] ->
   check_for_node os_exec utf8_decode strip w =
   (Raise (TyperExit 0),
    World f' (log w ++ [LogInfo "Checking that Node.js is installed.";
                        Sys (Exec ["node"; "-v"] None);
                        LogError "Could not find Node.js installation. Please install it from https://nodejs.org : "
                                 UnicodeDecodeError]))).
Proof.
  intros Hd run raised. unfold run, raised.
  repeat split; intros Ho.
  - rewrite check_for_npm_eq. unfold try_except.
    now rewrite (query_version_undecodable _ _ _ w out f' Ho Hd).
  - rewrite check_for_playwright_eq. unfold try_except.
    now rewrite (query_version_undecodable _ _ _ w out f' Ho Hd).
  - rewrite check_for_cypress_eq. unfold try_except.
    now rewrite (query_version_undecodable _ _ _ w out f' Ho Hd).
  - rewrite check_for_node_eq. unfold try_except.
    rewrite (query_version_undecodable _ _ _ w out f' Ho Hd). cbn.
    now rewrite <- app_assoc.
Qed.

(** Both install steps answer [False] when the process fails: the
    Playwright browser install and the Cypress install return [False],
    and raise nothing, if the command cannot be launched or exits with a
    non-zero code. *)
Theorem install_steps_return_false_on_failure (td : path) (w : world) :
  (forall e, invocation_failure
               (fst (os_exec ["playwright"; "install"; "chromium"] (Some td) (fs w))) = Some e ->
     fst (check_for_playwright_browsers os_exec td w) = Ok (PBool false)) /\
  (forall e, invocation_failure
               (fst (os_exec ["npx"; "--yes"; "cypress"; "install"] (Some td) (fs w))) = Some e ->
     fst (check_for_cypress_installation os_exec td w) = Ok (PBool false)).
Proof. apply install_steps_failure. Qed.

End Probes.

Lemma probes_return_stripped_version_witness :
  check_for_npm (all_exit 0 "10.2.4") Some id (World tests_dir []) =
  (Ok (PStr "10.2.4"),
   World tests_dir [LogInfo "Checking that npm is installed."; Sys (Exec ["npm"; "-v"] None);
                    LogInfo "found npm version: 10.2.4"]).
Proof.
  destruct (probes_return_stripped_version (all_exit 0 "10.2.4") Some id
              (World tests_dir []) "10.2.4" "10.2.4" tests_dir) as (_ & H & _).
  - reflexivity.
  - rewrite H; reflexivity.
Defined.

Lemma probes_on_undecodable_output_witness :
  fst (check_for_npm (all_exit 0 "x") (fun _ => None) id (World tests_dir []))
  = Raise UnicodeDecodeError.
Proof.
  destruct (probes_on_undecodable_output (all_exit 0 "x") (fun _ => None) id
              (World tests_dir []) "x" tests_dir) as (H & _).
  - reflexivity.
  - rewrite H; reflexivity.
Defined.

Lemma install_steps_return_false_on_failure_witness :
  fst (check_for_cypress_installation (all_exit 2 "") ["tests"] (World tests_dir []))
  = Ok (PBool false).
Proof.
  destruct (install_steps_return_false_on_failure (all_exit 2 "") ["tests"]
              (World tests_dir [])) as [_ H].
  apply (H (CalledProcessError 2)). reflexivity.
Defined.

End ScaffoldMore.
